(** * X-news-image-bot: history store and posting pipeline of [Main.py]

    A shallow embedding of the bot's code.  Python values are typed the way
    the annotations of [Main.py] type them: an identifier and a timestamp
    are strings, a history is a finite map from strings to strings, an
    optional string is [option string].  What is read from the history file
    is not typed by the code: it is any JSON value ([pyobj]).  Every call
    that leaves the process (news provider, text and image generation,
    publishing platform, the history file, the clock) is answered by the
    environment [env]; the calls made and their answers are recorded in the
    [log] of the [world] the program runs in.  Calls to [logger] only write
    log records and are left out. *)

From Stdlib Require Import ZArith Lia ZifyBool List DecimalString.
From Stdlib Require Ascii String.
From stdpp Require Import base option list gmap strings fin_maps.

Local Open Scope Z_scope.

(** ** Python values and exceptions *)

(** The exception classes the code can meet.  [RequestException] stands for
    [requests.exceptions.RequestException] and its subclasses (connection
    errors, timeouts, [HTTPError] raised by [raise_for_status]); all others
    are subclasses of [Exception] outside that family. *)
Inductive exn : Set :=
| RequestException
| OSError
| JSONDecodeError
| IndexError
| KeyError
| OverflowError
| AttributeError
| TypeError
| APIError
| TweepyException.

Definition is_RequestException (e : exn) : bool :=
  match e with RequestException => true | _ => false end.

(** The result of evaluating a Python expression: a value, or a raised
    exception. *)
Inductive outcome (A : Type) : Type :=
| Ok (a : A)
| Raise (e : exn).
Arguments Ok {A} a.
Arguments Raise {A} e.

(** Truth value of an [Optional[str]]: [None] and the empty string are
    false. *)
Definition truthy (o : option string) : bool :=
  match o with
  | None => false
  | Some s => negb (String.eqb s "")
  end.

(** [not x] *)
Definition py_not (o : option string) : bool := negb (truthy o).

(** [x or y] *)
Definition py_or (x y : option string) : option string :=
  if truthy x then x else y.

(** [s > t] on [str]: lexicographic order on the code points; on the UTF-8
    bytes of a [string] this is the same order. *)
Definition str_gt (s t : string) : bool := String.ltb t s.

(** [str(n)] for an integer. *)
Definition str_of_Z (n : Z) : string := NilZero.string_of_int (Z.to_int n).

(** ** The [datetime] values the code uses

    [datetime.now()] is a naive datetime; its fields are kept the way the
    library keeps them.  The arithmetic follows the library's proleptic
    Gregorian ordinal of a date. *)
Module Datetime.

Record datetime : Set := mk_datetime {
  year : Z; month : Z; day : Z;
  hour : Z; minute : Z; second : Z; microsecond : Z }.

Definition is_leap (y : Z) : bool :=
  (y mod 4 =? 0) && (negb (y mod 100 =? 0) || (y mod 400 =? 0)).

Definition DAYS_IN_MONTH : list Z :=
  [-1; 31; 28; 31; 30; 31; 30; 31; 31; 30; 31; 30; 31].

Definition DAYS_BEFORE_MONTH : list Z :=
  [-1; 0; 31; 59; 90; 120; 151; 181; 212; 243; 273; 304; 334].

(** [table[i]] for an index inside the table. *)
Definition at_index (table : list Z) (i : Z) : Z := nth (Z.to_nat i) table 0.

Definition days_before_year (y : Z) : Z :=
  let y := y - 1 in y * 365 + y / 4 - y / 100 + y / 400.

Definition days_in_month (y m : Z) : Z :=
  if (m =? 2) && is_leap y then 29 else at_index DAYS_IN_MONTH m.

Definition days_before_month (y m : Z) : Z :=
  at_index DAYS_BEFORE_MONTH m + (if (2 <? m) && is_leap y then 1 else 0).

Definition ymd2ord (y m d : Z) : Z :=
  days_before_year y + days_before_month y m + d.

Definition DI400Y : Z := Eval cbv in days_before_year 401.
Definition DI100Y : Z := Eval cbv in days_before_year 101.
Definition DI4Y : Z := Eval cbv in days_before_year 5.
Definition MAXORDINAL : Z := Eval cbv in ymd2ord 9999 12 31.

Definition ord2ymd (n : Z) : Z * Z * Z :=
  let n := n - 1 in
  let n400 := n / DI400Y in let n := n mod DI400Y in
  let y := n400 * 400 + 1 in
  let n100 := n / DI100Y in let n := n mod DI100Y in
  let n4 := n / DI4Y in let n := n mod DI4Y in
  let n1 := n / 365 in let n := n mod 365 in
  let y := y + (n100 * 100 + n4 * 4 + n1) in
  if (n1 =? 4) || (n100 =? 4) then (y - 1, 12, 31)
  else
    let leapyear := (n1 =? 3) && (negb (n4 =? 24) || (n100 =? 3)) in
    let m := Z.shiftr (n + 50) 5 in
    let preceding :=
      at_index DAYS_BEFORE_MONTH m + (if (2 <? m) && leapyear then 1 else 0) in
    let '(m, preceding) :=
      if n <? preceding
      then (m - 1,
            preceding - (at_index DAYS_IN_MONTH (m - 1)
                         + (if (m - 1 =? 2) && leapyear then 1 else 0)))
      else (m, preceding) in
    (y, m, n - preceding + 1).

Definition toordinal (d : datetime) : Z := ymd2ord (year d) (month d) (day d).

(** [d - timedelta(days=days)]: the date moves by whole days, the time of
    day is kept; a date before year 1 is an [OverflowError]. *)
Definition sub_days (d : datetime) (days : Z) : outcome datetime :=
  let ord := toordinal d - days in
  if (0 <? ord) && (ord <=? MAXORDINAL)
  then let '(y, m, dd) := ord2ymd ord in
       Ok (mk_datetime y m dd (hour d) (minute d) (second d) (microsecond d))
  else Raise OverflowError.

(** The [w] decimal digits of [n], most significant first. *)
Definition digit (n : Z) : Ascii.ascii := Ascii.ascii_of_N (Z.to_N (48 + n)).

Fixpoint digits (w : nat) (n : Z) : string :=
  match w with
  | O => EmptyString
  | S w' => String (digit (n / 10 ^ Z.of_nat w')) (digits w' (n mod 10 ^ Z.of_nat w'))
  end.

(** ["%0wd" % n] for [0 <= n]: at least [w] digits, padded with zeros. *)
Definition fmt_0d (w : nat) (n : Z) : string :=
  if n <? 10 ^ Z.of_nat w then digits w n else str_of_Z n.

(** [d.isoformat()] of a naive datetime: the fraction is printed only
    when the microsecond is not zero. *)
Definition isoformat (d : datetime) : string :=
  fmt_0d 4 (year d) +:+ "-" +:+ fmt_0d 2 (month d) +:+ "-" +:+ fmt_0d 2 (day d)
  +:+ "T" +:+ fmt_0d 2 (hour d) +:+ ":" +:+ fmt_0d 2 (minute d)
  +:+ ":" +:+ fmt_0d 2 (second d)
  +:+ (if microsecond d =? 0 then "" else "." +:+ fmt_0d 6 (microsecond d)).

(** The range checks of the [datetime] constructor. *)
Definition wf (d : datetime) : bool :=
  (1 <=? year d) && (year d <=? 9999) && (1 <=? month d) && (month d <=? 12)
  && (1 <=? day d) && (day d <=? days_in_month (year d) (month d))
  && (0 <=? hour d) && (hour d <? 24) && (0 <=? minute d) && (minute d <? 60)
  && (0 <=? second d) && (second d <? 60)
  && (0 <=? microsecond d) && (microsecond d <? 1000000).

(** Chronological order of two datetimes: the order of their fields, most
    significant first. *)
Definition fields (d : datetime) : list Z :=
  [year d; month d; day d; hour d; minute d; second d; microsecond d].

Fixpoint lex_compare (l1 l2 : list Z) : comparison :=
  match l1, l2 with
  | x :: l1', y :: l2' =>
      match x ?= y with Eq => lex_compare l1' l2' | c => c end
  | [], [] => Eq
  | [], _ :: _ => Lt
  | _ :: _, [] => Gt
  end.

Definition compare (d1 d2 : datetime) : comparison :=
  lex_compare (fields d1) (fields d2).

Definition ltb (d1 d2 : datetime) : bool :=
  match compare d1 d2 with Lt => true | _ => false end.

End Datetime.

(** ** Constants of [Main.py] *)

Definition MAX_TWEET_LENGTH : Z := 160.
Definition MAX_PROMPT_LENGTH : Z := 160.
Definition NEWS_COUNTRY : string := "us".
Definition NEWS_CATEGORY : string := "technology".
Definition IMAGE_MODEL : string := "grok-imagine-image-pro".
Definition CHAT_MODEL : string := "grok-4-1-fast-reasoning".
Definition HISTORY_RETENTION_DAYS : Z := 7.

(** ** Data exchanged with the collaborators *)

(** The history document: identifier (article url) to ISO-8601 timestamp. *)
Abbreviation history := (gmap string string).

(** What [json.load] can return: any JSON value, as the Python object it
    decodes to ([None], a [bool], an [int], a [float] [m * 2 ^ e], a [str],
    a [list], or a [dict] with [str] keys). *)
#[warnings="-register-all"]
Inductive pyobj : Type :=
| PyNone
| PyBool (b : bool)
| PyInt (n : Z)
| PyFloat (m e : Z)
| PyStr (s : string)
| PyList (l : list pyobj)
| PyDict (d : gmap string pyobj).

(** The string a Python object is, if it is a [str]. *)
Definition as_str (v : pyobj) : option string :=
  match v with
  | PyStr s => Some s
  | _ => None
  end.

(** A history, as the Python object it is: a [dict] whose values are
    [str]. *)
#[warnings="-uniform-inheritance"]
Definition dict_of (h : gmap string string) : pyobj := PyDict (PyStr <$> h).
#[warnings="-uniform-inheritance"]
Coercion dict_of : gmap >-> pyobj.

(** An item of the news provider's list; a missing or [null] field is
    [None]. *)
Record article : Type := mk_article {
  title : option string;
  url : option string;
  description : option string }.

Record news_params : Type := mk_news_params {
  country : string; category : string; apiKey : string }.

(** The decoded body of the provider's answer; [articles] is [None] when
    the key is not there. *)
Record news_json : Type := mk_news_json { articles : option (list article) }.

Record chat_message : Type := mk_chat_message { role : string; content : string }.

Record chat_request : Type := mk_chat_request {
  chat_model : string; messages : list chat_message }.

(** [choices] holds [choice.message.content] of every choice. *)
Record chat_response : Type := mk_chat_response { choices : list (option string) }.

Record image_request : Type := mk_image_request {
  image_model : string; image_prompt : string; n : Z }.

(** [data] holds [item.url] of every generated image. *)
Record image_response : Type := mk_image_response { data : list (option string) }.

Record tweet_request : Type := mk_tweet_request {
  text : string; media_ids : list string }.

(** [tweet_id] is [response.data['id']], [None] when the key is not there. *)
Record tweet_response : Type := mk_tweet_response { tweet_id : option string }.

(** What the history file holds: nothing; something that cannot be opened
    or is not JSON ([open] or [json.load] raises [e]); or a JSON document,
    of whatever shape. *)
Inductive file_state : Type :=
| NoFile
| Unreadable (e : exn)
| Document (j : pyobj).

(** How an [open(HISTORY_FILE, 'w')] followed by [json.dump] ends: the
    document is written; [open] fails and the file is left as it was; or the
    dump fails after [open] has truncated the file. *)
Inductive write_result : Set := Written | OpenFails | DumpFails.

(** The calls that leave the process, with their answers. *)
Inductive event : Type :=
| NewsGet (q : news_params) (r : outcome news_json)
| ChatCreate (q : chat_request) (r : outcome chat_response)
| ImagesGenerate (q : image_request) (r : outcome image_response)
| ImageGet (q : string) (r : outcome (list Byte.byte))
| MediaUpload (q : list Byte.byte) (r : outcome string)
| CreateTweet (q : tweet_request) (r : outcome tweet_response)
| FileWrite (q : history) (r : write_result).

(** The environment of one run: configuration, clock and collaborators. *)
Record env : Type := mk_env {
  NEWS_API_KEY : string;
  clock : nat -> Datetime.datetime;
  file_write : history -> write_result;
  news_get : news_params -> outcome news_json;
  chat_completions_create : chat_request -> outcome chat_response;
  images_generate : image_request -> outcome image_response;
  image_get : string -> outcome (list Byte.byte);
  media_upload : list Byte.byte -> outcome string;
  create_tweet : tweet_request -> outcome tweet_response }.

(** The state a run works on: the history file, the number of clock
    readings so far, and the calls made so far (oldest first). *)
Record world : Type := mk_world {
  store : file_state;
  ticks : nat;
  log : list event }.

(** ** Programs: state passing with exceptions *)

Definition prog (A : Type) : Type := world -> outcome A * world.

#[export] Instance prog_ret : MRet prog := fun A a w => (Ok a, w).

#[export] Instance prog_bind : MBind prog := fun A B k m w =>
  match m w with
  | (Ok a, w') => k a w'
  | (Raise e, w') => (Raise e, w')
  end.

#[export] Instance prog_throw : MThrow exn prog := fun A e w => (Raise e, w).

(** A pure expression that may raise. *)
Definition lift {A} (o : outcome A) : prog A := fun w => (o, w).

(** [try: body  except <classes>: handler] *)
Definition try_except {A} (body : prog A) (classes : exn -> bool)
    (handler : exn -> prog A) : prog A := fun w =>
  match body w with
  | (Raise e, w') => if classes e then handler e w' else (Raise e, w')
  | r => r
  end.

(** [except Exception] *)
Definition Exception (e : exn) : bool := true.

(** A call to a collaborator: the answer comes from the environment and the
    call is recorded. *)
Definition call {Q R} (answer : Q -> outcome R)
    (ev : Q -> outcome R -> event) (q : Q) : prog R := fun w =>
  (answer q, mk_world (store w) (ticks w) (log w ++ [ev q (answer q)])).

(** [xs[0]] *)
Definition index0 {A} (xs : list A) : outcome A :=
  match xs with
  | x :: _ => Ok x
  | [] => Raise IndexError
  end.

(** The string of an [Optional[str]] already known to be a string. *)
Definition the (o : option string) : string := default "" o.

Definition nl : string := String (Ascii.ascii_of_nat 10) EmptyString.

(** The request [generate_dalle_prompt] sends for a news description:
    [model] and [messages], the user message being the function's f-string. *)
Definition dalle_prompt_request (news_description : string) : chat_request :=
  let prompt :=
    "News: '" +:+ news_description +:+ "'" +:+ nl +:+ nl
    +:+ "Generate hyperrealistic image prompt. Requirements: photographic quality, sharp focus, professional lighting, sharp details. Max "
    +:+ str_of_Z MAX_PROMPT_LENGTH +:+ " chars. Output prompt only." in
  mk_chat_request CHAT_MODEL
    [mk_chat_message "system"
       "Image prompt engineer. Output: dense, photorealistic prompts.";
     mk_chat_message "user" prompt].

(** The request [generate_tweet_text] sends. *)
Definition tweet_text_request (news_description news_url : string)
    : chat_request :=
  let prompt :=
    "News: '" +:+ news_description +:+ "'" +:+ nl
    +:+ "URL: " +:+ news_url +:+ nl +:+ nl
    +:+ "Summarize as tweet. Include URL when valuable (deals, guides, breaking news, resources). Style: casual journalistic. Tense: past/summary. No CTAs. Max "
    +:+ str_of_Z MAX_TWEET_LENGTH +:+ " chars including URL." in
  mk_chat_request CHAT_MODEL
    [mk_chat_message "system"
       "Tweet writer. Include article URLs for deals, guides, resources, breaking news. Concise, standalone, journalistic.";
     mk_chat_message "user" prompt].

(** ** The functions of [Main.py] *)

Section Bot.

Variable E : env.

(** [datetime.now()] *)
Definition datetime_now : prog Datetime.datetime := fun w =>
  (Ok (clock E (ticks w)), mk_world (store w) (S (ticks w)) (log w)).

(** [HISTORY_FILE.exists()] *)
Definition file_exists : prog bool := fun w =>
  (Ok (match store w with NoFile => false | _ => true end), w).

(** [with open(HISTORY_FILE, 'r') as f: json.load(f)]: the document as it
    decodes, with no check of its shape. *)
Definition file_load_json : prog pyobj := fun w =>
  match store w with
  | Document j => (Ok j, w)
  | Unreadable e => (Raise e, w)
  | NoFile => (Raise OSError, w)
  end.

(** [with open(HISTORY_FILE, 'w') as f: json.dump(history, f, indent=2)] *)
Definition file_dump_json (h : history) : prog unit := fun w =>
  let r := file_write E h in
  let l := log w ++ [FileWrite h r] in
  match r with
  | Written => (Ok tt, mk_world (Document h) (ticks w) l)
  | OpenFails => (Raise OSError, mk_world (store w) (ticks w) l)
  | DumpFails => (Raise OSError, mk_world (Unreadable JSONDecodeError) (ticks w) l)
  end.

Definition load_posted_articles : prog pyobj :=
  found ← file_exists;
  if negb found then mret (dict_of ∅)
  else try_except file_load_json Exception (fun _ => mret (dict_of ∅)).

Definition save_posted_articles (h : history) : prog unit :=
  try_except (file_dump_json h) Exception (fun _ => mret tt).

(** The body of [clean_old_entries] for a retention window of [days] days
    (the code's window is the constant [HISTORY_RETENTION_DAYS]) once
    [datetime.now()] has answered [now].  The argument is whatever was
    loaded: [history.items()] raises [AttributeError] on an object that is
    not a [dict], and [timestamp > cutoff] raises [TypeError] on a value
    that is not a [str]. *)
Definition clean_old_entries_with (days : Z) (now : Datetime.datetime)
    (h : pyobj) : outcome history :=
  match Datetime.sub_days now days with
  | Ok d =>
      let cutoff := Datetime.isoformat d in
      match h with
      | PyDict items =>
          if decide (map_Forall (fun _ v => is_Some (as_str v)) items)
          then Ok (filter (fun kv : string * string => str_gt kv.2 cutoff)
                     (omap as_str items))
          else Raise TypeError
      | _ => Raise AttributeError
      end
  | Raise e => Raise e
  end.

Definition clean_old_entries (h : pyobj) : prog history :=
  now ← datetime_now;
  lift (clean_old_entries_with HISTORY_RETENTION_DAYS now h).

Definition is_article_posted (u : string) (h : history) : bool :=
  bool_decide (is_Some (h !! u)).

Definition mark_article_posted (u : string) (h : history) : prog history :=
  now ← datetime_now;
  mret (<[u := Datetime.isoformat now]> h).

(** The [for article in articles] loop of [fetch_daily_news], with the
    [return] after it. *)
Fixpoint first_unposted (arts : list article) (h : history)
    : option string * option string * option string :=
  match arts with
  | [] => (None, None, None)
  | a :: arts' =>
      let article_url := url a in
      if py_not article_url then first_unposted arts' h
      else if negb (is_article_posted (the article_url) h)
      then
        let article_description := py_or (description a) (title a) in
        let article_title := title a in
        (article_title, article_url, article_description)
      else first_unposted arts' h
  end.

Definition fetch_daily_news (api_key : string) (h : history)
    : prog (option string * option string * option string) :=
  let params := mk_news_params NEWS_COUNTRY NEWS_CATEGORY api_key in
  try_except
    (response ← call (news_get E) NewsGet params;
     let arts := default [] (articles response) in
     match arts with
     | [] => mret (None, None, None)
     | _ :: _ => mret (first_unposted arts h)
     end)
    is_RequestException
    (fun _ => mret (None, None, None)).

Definition generate_dalle_prompt (news_description : string)
    : prog (option string) :=
  try_except
    (response ← call (chat_completions_create E) ChatCreate
       (dalle_prompt_request news_description);
     response_message ← lift (index0 (choices response));
     mret response_message)
    Exception
    (fun _ => mret None).

Definition generate_ai_image (prompt : string) : prog (option string) :=
  if String.eqb prompt "" then mret None
  else
    try_except
      (response ← call (images_generate E) ImagesGenerate
         (mk_image_request IMAGE_MODEL prompt 1);
       image_url ← lift (index0 (data response));
       mret image_url)
      Exception
      (fun _ => mret None).

Definition generate_tweet_text (news_description news_url : string)
    : prog (option string) :=
  try_except
    (response ← call (chat_completions_create E) ChatCreate
       (tweet_text_request news_description news_url);
     response_message ← lift (index0 (choices response));
     mret response_message)
    Exception
    (fun _ => mret None).

Definition upload_image_to_twitter (image_url : string) : prog (option string) :=
  try_except
    (image_data ← call (image_get E) ImageGet image_url;
     media_id_string ← call (media_upload E) MediaUpload image_data;
     mret (Some media_id_string))
    Exception
    (fun _ => mret None).

Definition post_tweet (tweet_text image_url : string)
    (news_title : option string) (news_url : string) : prog unit :=
  media_id ← upload_image_to_twitter image_url;
  if py_not media_id then mret tt
  else
    try_except
      (response ← call (create_tweet E) CreateTweet
         (mk_tweet_request tweet_text [the media_id]);
       match tweet_id response with
       | Some _ => mret tt
       | None => mthrow KeyError
       end)
      Exception
      (fun _ => mret tt).

Definition main : prog unit :=
  try_except
    (h ← load_posted_articles;
     h ← clean_old_entries h;
     '(news_title, news_url, news_description) ← fetch_daily_news (NEWS_API_KEY E) h;
     if py_not news_url || py_not news_description then mret tt
     else
       image_prompt ← generate_dalle_prompt (the news_description);
       if py_not image_prompt then mret tt
       else
         image_url ← generate_ai_image (the image_prompt);
         if py_not image_url then mret tt
         else
           tweet_text ← generate_tweet_text (the news_description) (the news_url);
           if py_not tweet_text then mret tt
           else
             post_tweet (the tweet_text) (the image_url) news_title (the news_url);;
             h ← mark_article_posted (the news_url) h;
             save_posted_articles h;;
             mret tt)
    Exception
    (fun _ => mret tt).

End Bot.

(** ** Auxiliary definitions for the proofs *)

(** Month and day of the [n]th day (from 0) of a year, as [ord2ymd]
    computes them. *)
Definition month_day (leapyear : bool) (n : Z) : Z * Z :=
  let m := Z.shiftr (n + 50) 5 in
  let preceding :=
    Datetime.at_index Datetime.DAYS_BEFORE_MONTH m
    + (if (2 <? m) && leapyear then 1 else 0) in
  let '(m, preceding) :=
    if n <? preceding
    then (m - 1,
          preceding - (Datetime.at_index Datetime.DAYS_IN_MONTH (m - 1)
                       + (if (m - 1 =? 2) && leapyear then 1 else 0)))
    else (m, preceding) in
  (m, n - preceding + 1).

Definition month_day_ok (leapyear : bool) (n : Z) : bool :=
  let '(m, d) := month_day leapyear n in
  (1 <=? m) && (m <=? 12) && (1 <=? d)
  && (d <=? (if (m =? 2) && leapyear then 29
             else Datetime.at_index Datetime.DAYS_IN_MONTH m))
  && (Datetime.at_index Datetime.DAYS_BEFORE_MONTH m
      + (if (2 <? m) && leapyear then 1 else 0) + d =? n + 1).

(** Sample history: one entry of 2024-03-01 and one of 2024-03-14, and a
    sample clock reading of 2024-03-15. *)
Definition sample_history : history :=
  {[ "https://old.com" := "2024-03-01T08:00:00";
     "https://recent.com" := "2024-03-14T09:30:00.250000" ]}.

Definition sample_now : Datetime.datetime :=
  Datetime.mk_datetime 2024 3 15 12 0 0 0.

(** The result [(None, None, None)] of the selector. *)
Definition no_candidate : option string * option string * option string :=
  (None, None, None).

(** An item the selector may return: its url is a non-empty string that is
    not a key of the history. *)
Definition usable (h : history) (a : article) : bool :=
  truthy (url a) && negb (is_article_posted (the (url a)) h).

(** What the selector returns for the item it picks. *)
Definition candidate_of (a : article)
    : option string * option string * option string :=
  (title a, url a, py_or (description a) (title a)).

(** The selection as the specification words it: the first item of the list,
    in the order returned, whose identifier is non-empty and not in the
    history. *)
Definition selectCandidate_spec (arts : list article) (h : history)
    : option string * option string * option string :=
  match List.find (usable h) arts with
  | Some a => candidate_of a
  | None => no_candidate
  end.

(** The request [fetch_daily_news] sends. *)
Definition news_request (api_key : string) : news_params :=
  mk_news_params NEWS_COUNTRY NEWS_CATEGORY api_key.

(** What a text-generation stage returns for an answer of the collaborator,
    and what the image stage returns. *)
Definition chat_text (r : outcome chat_response) : option string :=
  match r with
  | Ok resp => match choices resp with c :: _ => c | [] => None end
  | Raise _ => None
  end.

Definition image_location (r : outcome image_response) : option string :=
  match r with
  | Ok resp => match data resp with u :: _ => u | [] => None end
  | Raise _ => None
  end.

(** Sample answers of the news provider. *)
Definition sample_articles : list article :=
  [ mk_article (Some "Old News") (Some "https://old.com") (Some "Old");
    mk_article (Some "No link") None (Some "Nothing to key on");
    mk_article (Some "New News") (Some "https://new.com") (Some "New");
    mk_article (Some "Later News") (Some "https://later.com") (Some "Later") ].

(** An environment in which every collaborator answers. *)
Definition sample_env : env :=
  mk_env "key"
    (fun _ => sample_now)
    (fun _ => Written)
    (fun _ => Ok (mk_news_json (Some sample_articles)))
    (fun _ => Ok (mk_chat_response [Some "generated text"]))
    (fun _ => Ok (mk_image_response [Some "https://images.example/1.jpg"]))
    (fun _ => Ok [])
    (fun _ => Ok "123456789")
    (fun _ => Ok (mk_tweet_response (Some "42"))).

(** *** Reading a run's log *)

(** The history commit: the marked history is written to the file. *)
Definition is_commit (ev : event) : bool :=
  match ev with FileWrite _ _ => true | _ => false end.

Definition committed (l : list event) : bool := existsb is_commit l.

(** The post identifier in an answer of [create_tweet], if any. *)
Definition post_id (r : outcome tweet_response) : option string :=
  match r with
  | Ok resp => tweet_id resp
  | Raise _ => None
  end.

(** The publish stage obtained a post identifier: [create_tweet] answered
    with an [id]. *)
Definition is_post (ev : event) : bool :=
  match ev with
  | CreateTweet _ r => match post_id r with Some _ => true | None => false end
  | _ => false
  end.

Definition published (l : list event) : bool := existsb is_post l.

(** A generation stage (directive, image, caption) yielded no result: its
    collaborator call failed or answered nothing usable. *)
Definition is_generation_failure (ev : event) : bool :=
  match ev with
  | ChatCreate _ r => py_not (chat_text r)
  | ImagesGenerate _ r => py_not (image_location r)
  | _ => false
  end.

Definition generation_failed (l : list event) : bool :=
  existsb is_generation_failure l.

(** The publish stage was entered: [post_tweet] starts by fetching the
    rendered image. *)
Definition is_image_get (ev : event) : bool :=
  match ev with ImageGet _ _ => true | _ => false end.

Definition publish_attempted (l : list event) : bool := existsb is_image_get l.

(** The publish stage yielded no result: fetching the image, uploading it
    or creating the post failed. *)
Definition is_publish_failure (ev : event) : bool :=
  match ev with
  | ImageGet _ (Raise _) => true
  | MediaUpload _ (Raise _) => true
  | MediaUpload _ (Ok id) => String.eqb id ""
  | CreateTweet _ r => match post_id r with Some _ => false | None => true end
  | _ => false
  end.

Definition publish_failed (l : list event) : bool :=
  existsb is_publish_failure l.

(** The calls [post_tweet] makes for a caption and an image location: the
    image is fetched, then uploaded, then the post is created; the first
    failure ends the sequence. *)
Definition publish_events (E : env) (tweet_text image_url : string)
    : list event :=
  let r1 := image_get E image_url in
  ImageGet image_url r1 ::
  match r1 with
  | Raise _ => []
  | Ok image_data =>
      let r2 := media_upload E image_data in
      MediaUpload image_data r2 ::
      match r2 with
      | Raise _ => []
      | Ok media_id =>
          if String.eqb media_id "" then []
          else
            let q := mk_tweet_request tweet_text [media_id] in
            [CreateTweet q (create_tweet E q)]
      end
  end.

(** What [fetch_daily_news] returns for an answer of the provider. *)
Definition selection (r : outcome news_json) (h : history)
    : outcome (option string * option string * option string) :=
  match r with
  | Ok resp => Ok (first_unposted (default [] (articles resp)) h)
  | Raise e => if is_RequestException e then Ok no_candidate else Raise e
  end.

(** What [load_posted_articles] returns for a file. *)
Definition loaded (st : file_state) : pyobj :=
  match st with
  | Document j => j
  | NoFile | Unreadable _ => dict_of ∅
  end.

(** The file after a write of [h] that ended as [r]. *)
Definition written (st : file_state) (h : history) (r : write_result)
    : file_state :=
  match r with
  | Written => Document h
  | OpenFails => st
  | DumpFails => Unreadable JSONDecodeError
  end.

(** A history file that is JSON but not a mapping: a list of urls. *)
Definition list_document : pyobj := PyList [PyStr "https://old.com"].

(** The world a run of [main] ends in, stage by stage. *)
Definition run_world (E : env) (st : file_state) : world :=
  match clean_old_entries_with HISTORY_RETENTION_DAYS (clock E 0) (loaded st) with
  | Raise _ => mk_world st 1 []
  | Ok h =>
      let q0 := news_request (NEWS_API_KEY E) in
      let ev0 := NewsGet q0 (news_get E q0) in
      match selection (news_get E q0) h with
      | Raise _ => mk_world st 1 [ev0]
      | Ok (t, u, d) =>
          if py_not u || py_not d then mk_world st 1 [ev0]
          else
            let q1 := dalle_prompt_request (the d) in
            let a1 := chat_completions_create E q1 in
            let ev1 := ChatCreate q1 a1 in
            if py_not (chat_text a1) then mk_world st 1 [ev0; ev1]
            else
              let q2 := mk_image_request IMAGE_MODEL (the (chat_text a1)) 1 in
              let a2 := images_generate E q2 in
              let ev2 := ImagesGenerate q2 a2 in
              if py_not (image_location a2) then mk_world st 1 [ev0; ev1; ev2]
              else
                let q3 := tweet_text_request (the d) (the u) in
                let a3 := chat_completions_create E q3 in
                let ev3 := ChatCreate q3 a3 in
                if py_not (chat_text a3) then mk_world st 1 [ev0; ev1; ev2; ev3]
                else
                  let h' := <[the u := Datetime.isoformat (clock E 1)]> h in
                  let r := file_write E h' in
                  mk_world (written st h' r) 2
                    ([ev0; ev1; ev2; ev3]
                     ++ publish_events E (the (chat_text a3))
                          (the (image_location a2))
                     ++ [FileWrite h' r])
      end
  end.

(** One run of the bot on a history file, and the calls it makes. *)
Definition run (E : env) (st : file_state) : outcome unit * world :=
  main E (mk_world st 0 []).

Definition trace (E : env) (st : file_state) : list event := log (run E st).2.

Definition store_after (E : env) (st : file_state) : file_state :=
  store (run E st).2.

(** Environments in which one step of the publish stage fails: fetching the
    rendered image, and creating the post. *)
Definition image_fetch_fails_env : env :=
  mk_env "key"
    (fun _ => sample_now)
    (fun _ => Written)
    (fun _ => Ok (mk_news_json (Some sample_articles)))
    (fun _ => Ok (mk_chat_response [Some "generated text"]))
    (fun _ => Ok (mk_image_response [Some "https://images.example/1.jpg"]))
    (fun _ => Raise RequestException)
    (fun _ => Ok "123456789")
    (fun _ => Ok (mk_tweet_response (Some "42"))).

Definition create_tweet_fails_env : env :=
  mk_env "key"
    (fun _ => sample_now)
    (fun _ => Written)
    (fun _ => Ok (mk_news_json (Some sample_articles)))
    (fun _ => Ok (mk_chat_response [Some "generated text"]))
    (fun _ => Ok (mk_image_response [Some "https://images.example/1.jpg"]))
    (fun _ => Ok [])
    (fun _ => Ok "123456789")
    (fun _ => Raise TweepyException).

(** An environment whose provider lists first an unposted article with
    neither description nor title, then a complete one. *)
Definition untitled_first_env : env :=
  mk_env "key"
    (fun _ => sample_now)
    (fun _ => Written)
    (fun _ => Ok (mk_news_json (Some
       [ mk_article None (Some "https://bare.com") None;
         mk_article (Some "New News") (Some "https://new.com") (Some "New") ])))
    (fun _ => Ok (mk_chat_response [Some "generated text"]))
    (fun _ => Ok (mk_image_response [Some "https://images.example/1.jpg"]))
    (fun _ => Ok [])
    (fun _ => Ok "123456789")
    (fun _ => Ok (mk_tweet_response (Some "42"))).

(** *** Datetimes on the time line *)

(** Microseconds in a day. *)
Definition DAY_US : Z := 86400 * 1000000.

(** The position of a datetime on the time line, in microseconds: its
    ordinal day, then its time of day. *)
Definition timeline (d : Datetime.datetime) : Z :=
  (((Datetime.toordinal d * 24 + Datetime.hour d) * 60 + Datetime.minute d) * 60
   + Datetime.second d) * 1000000 + Datetime.microsecond d.

(** A later clock reading, less than seven days after [sample_now], and one
    more than seven days after it. *)
Definition sample_later : Datetime.datetime :=
  Datetime.mk_datetime 2024 3 20 8 0 0 0.

Definition sample_much_later : Datetime.datetime :=
  Datetime.mk_datetime 2024 3 22 12 0 0 1.

(** [sample_env] with another clock and another answer to the file write. *)
Definition env_with (now : Datetime.datetime) (r : write_result) : env :=
  mk_env "key"
    (fun _ => now)
    (fun _ => r)
    (news_get sample_env)
    (chat_completions_create sample_env)
    (images_generate sample_env)
    (image_get sample_env)
    (media_upload sample_env)
    (create_tweet sample_env).

(** An environment whose provider answers with a body that does not decode
    into JSON, reported by an exception outside [RequestException]. *)
Definition provider_breaks_env : env :=
  mk_env "key"
    (fun _ => sample_now)
    (fun _ => Written)
    (fun _ => Raise JSONDecodeError)
    (chat_completions_create sample_env)
    (images_generate sample_env)
    (image_get sample_env)
    (media_upload sample_env)
    (create_tweet sample_env).

(** An environment whose image generation fails. *)
Definition image_generation_fails_env : env :=
  mk_env "key"
    (fun _ => sample_now)
    (fun _ => Written)
    (news_get sample_env)
    (chat_completions_create sample_env)
    (fun _ => Raise APIError)
    (image_get sample_env)
    (media_upload sample_env)
    (create_tweet sample_env).

(** *** The stages of a run *)

(** The worlds a run of [main] on the file [st] can end in, one case for
    each place where the run stops: the pruning raises; the selector gives
    no candidate, raises, or gives a candidate without url or summary; a
    generation stage yields nothing; or the run goes through the publish
    stage and the save. *)
Inductive pipeline (E : env) (st : file_state) : world → Prop :=
| stop_prune (e : exn) :
    clean_old_entries_with HISTORY_RETENTION_DAYS (clock E 0) (loaded st)
    = Raise e →
    pipeline E st (mk_world st 1 [])
| stop_select (h : history) :
    clean_old_entries_with HISTORY_RETENTION_DAYS (clock E 0) (loaded st)
    = Ok h →
    match selection (news_get E (news_request (NEWS_API_KEY E))) h with
    | Raise _ => True
    | Ok (t, u, d) => py_not u = true ∨ py_not d = true
    end →
    pipeline E st
      (mk_world st 1
         [NewsGet (news_request (NEWS_API_KEY E))
            (news_get E (news_request (NEWS_API_KEY E)))])
| stop_directive (h : history) (t : option string) (u d : string) :
    clean_old_entries_with HISTORY_RETENTION_DAYS (clock E 0) (loaded st)
    = Ok h →
    selection (news_get E (news_request (NEWS_API_KEY E))) h
    = Ok (t, Some u, Some d) →
    u ≠ "" → d ≠ "" →
    py_not (chat_text (chat_completions_create E (dalle_prompt_request d)))
    = true →
    pipeline E st
      (mk_world st 1
         [NewsGet (news_request (NEWS_API_KEY E))
            (news_get E (news_request (NEWS_API_KEY E)));
          ChatCreate (dalle_prompt_request d)
            (chat_completions_create E (dalle_prompt_request d))])
| stop_image (h : history) (t : option string) (u d p : string) :
    clean_old_entries_with HISTORY_RETENTION_DAYS (clock E 0) (loaded st)
    = Ok h →
    selection (news_get E (news_request (NEWS_API_KEY E))) h
    = Ok (t, Some u, Some d) →
    u ≠ "" → d ≠ "" →
    chat_text (chat_completions_create E (dalle_prompt_request d)) = Some p →
    p ≠ "" →
    py_not (image_location
              (images_generate E (mk_image_request IMAGE_MODEL p 1))) = true →
    pipeline E st
      (mk_world st 1
         [NewsGet (news_request (NEWS_API_KEY E))
            (news_get E (news_request (NEWS_API_KEY E)));
          ChatCreate (dalle_prompt_request d)
            (chat_completions_create E (dalle_prompt_request d));
          ImagesGenerate (mk_image_request IMAGE_MODEL p 1)
            (images_generate E (mk_image_request IMAGE_MODEL p 1))])
| stop_caption (h : history) (t : option string) (u d p loc : string) :
    clean_old_entries_with HISTORY_RETENTION_DAYS (clock E 0) (loaded st)
    = Ok h →
    selection (news_get E (news_request (NEWS_API_KEY E))) h
    = Ok (t, Some u, Some d) →
    u ≠ "" → d ≠ "" →
    chat_text (chat_completions_create E (dalle_prompt_request d)) = Some p →
    p ≠ "" →
    image_location (images_generate E (mk_image_request IMAGE_MODEL p 1))
    = Some loc →
    loc ≠ "" →
    py_not (chat_text (chat_completions_create E (tweet_text_request d u)))
    = true →
    pipeline E st
      (mk_world st 1
         [NewsGet (news_request (NEWS_API_KEY E))
            (news_get E (news_request (NEWS_API_KEY E)));
          ChatCreate (dalle_prompt_request d)
            (chat_completions_create E (dalle_prompt_request d));
          ImagesGenerate (mk_image_request IMAGE_MODEL p 1)
            (images_generate E (mk_image_request IMAGE_MODEL p 1));
          ChatCreate (tweet_text_request d u)
            (chat_completions_create E (tweet_text_request d u))])
| through_publish (h : history) (t : option string) (u d p loc c : string) :
    clean_old_entries_with HISTORY_RETENTION_DAYS (clock E 0) (loaded st)
    = Ok h →
    selection (news_get E (news_request (NEWS_API_KEY E))) h
    = Ok (t, Some u, Some d) →
    u ≠ "" → d ≠ "" →
    chat_text (chat_completions_create E (dalle_prompt_request d)) = Some p →
    p ≠ "" →
    image_location (images_generate E (mk_image_request IMAGE_MODEL p 1))
    = Some loc →
    loc ≠ "" →
    chat_text (chat_completions_create E (tweet_text_request d u)) = Some c →
    c ≠ "" →
    pipeline E st
      (mk_world
         (written st (<[u := Datetime.isoformat (clock E 1)]> h)
            (file_write E (<[u := Datetime.isoformat (clock E 1)]> h)))
         2
         ([NewsGet (news_request (NEWS_API_KEY E))
             (news_get E (news_request (NEWS_API_KEY E)));
           ChatCreate (dalle_prompt_request d)
             (chat_completions_create E (dalle_prompt_request d));
           ImagesGenerate (mk_image_request IMAGE_MODEL p 1)
             (images_generate E (mk_image_request IMAGE_MODEL p 1));
           ChatCreate (tweet_text_request d u)
             (chat_completions_create E (tweet_text_request d u))]
          ++ publish_events E c loc
          ++ [FileWrite (<[u := Datetime.isoformat (clock E 1)]> h)
                (file_write E (<[u := Datetime.isoformat (clock E 1)]> h))])).

(** The kinds of call a run makes. *)
Inductive call_kind : Set :=
| News | Chat | Image | Fetch | Upload | Post | Save.

Definition kind_of (ev : event) : call_kind :=
  match ev with
  | NewsGet _ _ => News
  | ChatCreate _ _ => Chat
  | ImagesGenerate _ _ => Image
  | ImageGet _ _ => Fetch
  | MediaUpload _ _ => Upload
  | CreateTweet _ _ => Post
  | FileWrite _ _ => Save
  end.


(** *** The check of the configuration at import

    [Main.py] reads six variables with [os.getenv] when it is imported and
    raises [EnvironmentError] (an alias of [OSError]) when one of them is
    unset or empty.  [environ] is the process environment after
    [load_dotenv()]. *)

Definition os_getenv (environ : gmap string string) (name : string)
    : option string :=
  environ !! name.

(** The dict [required_vars], in the order it is written. *)
Definition required_vars (environ : gmap string string)
    : list (string * option string) :=
  let XAI_API_KEY := os_getenv environ "XAI_API_KEY" in
  let CONSUMER_KEY := os_getenv environ "TWITTER_CONSUMER_KEY" in
  let CONSUMER_SECRET := os_getenv environ "TWITTER_CONSUMER_SECRET" in
  let TWITTER_ACCESS_TOKEN := os_getenv environ "TWITTER_ACCESS_TOKEN" in
  let TWITTER_ACCESS_TOKEN_SECRET :=
    os_getenv environ "TWITTER_ACCESS_TOKEN_SECRET" in
  let NEWS_API_KEY := os_getenv environ "NEWS_API_KEY" in
  [ ("XAI_API_KEY", XAI_API_KEY);
    ("TWITTER_CONSUMER_KEY", CONSUMER_KEY);
    ("TWITTER_CONSUMER_SECRET", CONSUMER_SECRET);
    ("TWITTER_ACCESS_TOKEN", TWITTER_ACCESS_TOKEN);
    ("TWITTER_ACCESS_TOKEN_SECRET", TWITTER_ACCESS_TOKEN_SECRET);
    ("NEWS_API_KEY", NEWS_API_KEY) ].

(** [[var_name for var_name, var_value in required_vars.items()
      if not var_value]] *)
Definition missing_vars (environ : gmap string string) : list string :=
  map fst (List.filter (fun kv : string * option string => py_not kv.2)
             (required_vars environ)).

(** [if missing_vars: raise EnvironmentError(...)] *)
Definition check_environment (environ : gmap string string) : outcome unit :=
  match missing_vars environ with
  | [] => Ok tt
  | _ :: _ => Raise OSError
  end.

(** The names of the variables the bot needs. *)
Definition REQUIRED_NAMES : list string :=
  [ "XAI_API_KEY"; "TWITTER_CONSUMER_KEY"; "TWITTER_CONSUMER_SECRET";
    "TWITTER_ACCESS_TOKEN"; "TWITTER_ACCESS_TOKEN_SECRET"; "NEWS_API_KEY" ].

(** A process environment with every variable set but one, which is
    empty. *)
Definition sample_environ : gmap string string :=
  {[ "XAI_API_KEY" := "xai-1";
     "TWITTER_CONSUMER_KEY" := "ck";
     "TWITTER_CONSUMER_SECRET" := "";
     "TWITTER_ACCESS_TOKEN" := "at";
     "TWITTER_ACCESS_TOKEN_SECRET" := "ats" ]}.

(** A history file that is a JSON object whose value is a number, not a
    timestamp string. *)
Definition number_document : pyobj :=
  PyDict {[ "https://old.com" := PyInt 1710504000 ]}.

(** ** Sample evaluations *)

Example isoformat_ex1 :
  Datetime.isoformat (Datetime.mk_datetime 2024 1 1 0 0 0 0) = "2024-01-01T00:00:00".
Proof. reflexivity. Qed.

Example isoformat_ex2 :
  Datetime.isoformat (Datetime.mk_datetime 2024 3 9 7 5 59 1200)
  = "2024-03-09T07:05:59.001200".
Proof. reflexivity. Qed.

Example sub_days_ex1 :
  Datetime.sub_days (Datetime.mk_datetime 2024 3 5 12 30 0 0) 7
  = Ok (Datetime.mk_datetime 2024 2 27 12 30 0 0).
Proof. reflexivity. Qed.

Example sub_days_ex2 :
  Datetime.sub_days (Datetime.mk_datetime 2023 1 3 23 59 59 999999) 7
  = Ok (Datetime.mk_datetime 2022 12 27 23 59 59 999999).
Proof. reflexivity. Qed.

Example sub_days_ex3 :
  Datetime.sub_days (Datetime.mk_datetime 1 1 7 0 0 0 0) 7 = Raise OverflowError.
Proof. reflexivity. Qed.

(** The cases of [test_main.py]. *)
Example test_fetch_daily_news_skip_posted :
  first_unposted
    [ mk_article (Some "Old News") (Some "https://old.com") (Some "Old");
      mk_article (Some "New News") (Some "https://new.com") (Some "New") ]
    {[ "https://old.com" := "2024-01-01T00:00:00" ]}
  = (Some "New News", Some "https://new.com", Some "New").
Proof. vm_compute. reflexivity. Qed.

Example test_fetch_daily_news_no_articles :
  first_unposted [] ∅ = (None, None, None).
Proof. reflexivity. Qed.

Example test_is_article_posted :
  is_article_posted "https://example.com"
    {[ "https://example.com" := "2024-01-01T00:00:00" ]} = true
  ∧ is_article_posted "https://new.com"
      {[ "https://example.com" := "2024-01-01T00:00:00" ]} = false.
Proof. vm_compute. done. Qed.

Example test_clean_old_entries :
  clean_old_entries_with HISTORY_RETENTION_DAYS sample_now
    ({[ "https://old.com" := "2024-03-05T12:00:00";
        "https://recent.com" := "2024-03-15T12:00:00" ]} : history)
  = Ok {[ "https://recent.com" := "2024-03-15T12:00:00" ]}.
Proof. vm_compute. reflexivity. Qed.

(** ** ISO timestamps are ordered like the datetimes they print *)

Lemma string_compare_refl (s : string) : String.compare s s = Eq.
Proof.
  induction s as [|c s IH]; simpl; [done|].
  unfold Ascii.compare. by rewrite N.compare_refl.
Qed.

Lemma string_compare_app (a1 a2 b1 b2 : string) :
  String.length a1 = String.length a2 →
  String.compare (a1 +:+ b1) (a2 +:+ b2)
  = match String.compare a1 a2 with Eq => String.compare b1 b2 | c => c end.
Proof.
  revert a2. induction a1 as [|c1 a1 IH]; intros [|c2 a2]; simpl; try done.
  intros [= Hlen]. destruct (Ascii.compare c1 c2); auto.
Qed.

Lemma string_compare_sep (c : Ascii.ascii) (a1 a2 b1 b2 : string) :
  String.length a1 = String.length a2 →
  String.compare (a1 +:+ String c EmptyString +:+ b1)
                 (a2 +:+ String c EmptyString +:+ b2)
  = match String.compare a1 a2 with Eq => String.compare b1 b2 | r => r end.
Proof.
  intros Hlen. rewrite string_compare_app by done.
  destruct (String.compare a1 a2); try done.
  simpl. unfold Ascii.compare. by rewrite N.compare_refl.
Qed.

Lemma digit_compare (a b : Z) :
  0 <= a <= 9 → 0 <= b <= 9 →
  Ascii.compare (Datetime.digit a) (Datetime.digit b) = (a ?= b).
Proof.
  intros Ha Hb. unfold Ascii.compare, Datetime.digit.
  rewrite !Ascii.N_ascii_embedding by lia.
  rewrite Z2N.inj_compare by lia.
  destruct (Z.compare_spec a b), (Z.compare_spec (48 + a) (48 + b)); lia || done.
Qed.

Lemma length_digits (w : nat) (n : Z) : String.length (Datetime.digits w n) = w.
Proof. revert n. induction w as [|w IH]; intros n; simpl; [done|]. by rewrite IH. Qed.

Lemma digits_compare (w : nat) (n1 n2 : Z) :
  0 <= n1 < 10 ^ Z.of_nat w → 0 <= n2 < 10 ^ Z.of_nat w →
  String.compare (Datetime.digits w n1) (Datetime.digits w n2) = (n1 ?= n2).
Proof.
  revert n1 n2. induction w as [|w IH]; intros n1 n2 H1 H2.
  - simpl in *. assert (n1 = 0) by lia. assert (n2 = 0) by lia. by subst.
  - rewrite Nat2Z.inj_succ, Z.pow_succ_r in H1, H2 by lia.
    cbn [Datetime.digits String.compare].
    set (p := 10 ^ Z.of_nat w) in *.
    assert (Hp : 0 < p) by (apply Z.pow_pos_nonneg; lia).
    pose proof (Z.div_mod n1 p ltac:(lia)) as E1.
    pose proof (Z.div_mod n2 p ltac:(lia)) as E2.
    pose proof (Z.mod_pos_bound n1 p Hp) as B1.
    pose proof (Z.mod_pos_bound n2 p Hp) as B2.
    assert (Q1 : 0 <= n1 / p <= 9).
    { split; [apply Z.div_pos; lia|].
      apply Z.lt_succ_r, Z.div_lt_upper_bound; lia. }
    assert (Q2 : 0 <= n2 / p <= 9).
    { split; [apply Z.div_pos; lia|].
      apply Z.lt_succ_r, Z.div_lt_upper_bound; lia. }
    rewrite digit_compare by done.
    rewrite IH by done.
    destruct (Z.compare_spec (n1 / p) (n2 / p)) as [Hq|Hq|Hq].
    + destruct (Z.compare_spec (n1 mod p) (n2 mod p)),
        (Z.compare_spec n1 n2); lia || done.
    + symmetry. apply Z.compare_lt_iff. nia.
    + symmetry. apply Z.compare_gt_iff. nia.
Qed.

Lemma fmt_0d_digits (w : nat) (n : Z) :
  n < 10 ^ Z.of_nat w → Datetime.fmt_0d w n = Datetime.digits w n.
Proof.
  intros Hn. unfold Datetime.fmt_0d.
  destruct (Z.ltb_spec n (10 ^ Z.of_nat w)); [done|lia].
Qed.

Lemma days_in_month_le (y m : Z) : Datetime.days_in_month y m <= 31.
Proof.
  unfold Datetime.days_in_month, Datetime.at_index.
  destruct ((m =? 2) && Datetime.is_leap y); [lia|].
  destruct (Z.to_nat m) as [|[|[|[|[|[|[|[|[|[|[|[|[|[|k]]]]]]]]]]]]]];
    simpl; lia.
Qed.

(** The bounds [wf] checks, as propositions. *)
Lemma wf_bounds (d : Datetime.datetime) :
  Datetime.wf d = true →
  1 <= Datetime.year d <= 9999 ∧ 1 <= Datetime.month d <= 12
  ∧ 1 <= Datetime.day d <= Datetime.days_in_month (Datetime.year d) (Datetime.month d)
  ∧ 0 <= Datetime.hour d < 24 ∧ 0 <= Datetime.minute d < 60
  ∧ 0 <= Datetime.second d < 60 ∧ 0 <= Datetime.microsecond d < 1000000.
Proof. unfold Datetime.wf. lia. Qed.

Lemma isoformat_compare (d1 d2 : Datetime.datetime) :
  Datetime.wf d1 = true → Datetime.wf d2 = true →
  String.compare (Datetime.isoformat d1) (Datetime.isoformat d2)
  = Datetime.compare d1 d2.
Proof.
  intros W1 W2.
  apply wf_bounds in W1 as (Y1 & M1 & D1 & h1 & m1 & s1 & u1).
  apply wf_bounds in W2 as (Y2 & M2 & D2 & h2 & m2 & s2 & u2).
  pose proof (days_in_month_le (Datetime.year d1) (Datetime.month d1)).
  pose proof (days_in_month_le (Datetime.year d2) (Datetime.month d2)).
  destruct d1 as [y1 mo1 dy1 hh1 mi1 ss1 us1], d2 as [y2 mo2 dy2 hh2 mi2 ss2 us2].
  unfold Datetime.isoformat, Datetime.compare, Datetime.fields.
  cbn [Datetime.year Datetime.month Datetime.day Datetime.hour Datetime.minute
       Datetime.second Datetime.microsecond Datetime.lex_compare] in *.
  rewrite !fmt_0d_digits by (simpl; lia).
  rewrite !string_compare_sep by (by rewrite !length_digits).
  rewrite string_compare_app by (by rewrite !length_digits).
  rewrite !digits_compare by (simpl; lia).
  destruct (y1 ?= y2), (mo1 ?= mo2), (dy1 ?= dy2), (hh1 ?= hh2), (mi1 ?= mi2),
    (ss1 ?= ss2); try done.
  destruct (Z.eqb_spec us1 0) as [->|N1], (Z.eqb_spec us2 0) as [->|N2].
  - done.
  - replace (0 ?= us2) with Lt by (symmetry; apply Z.compare_lt_iff; lia).
    done.
  - replace (us1 ?= 0) with Gt by (symmetry; apply Z.compare_gt_iff; lia).
    done.
  - etrans; [by apply (string_compare_sep _ EmptyString EmptyString)|].
    cbn [String.compare].
    rewrite digits_compare by (simpl; lia).
    by destruct (us1 ?= us2).
Qed.

(** ** Dates computed from an ordinal are in range *)

Lemma month_day_range (leapyear : bool) (n : Z) :
  0 <= n < 365 → month_day_ok leapyear n = true.
Proof.
  intros Hn.
  assert (Hall : forallb (month_day_ok leapyear) (seqZ 0 365) = true)
    by (destruct leapyear; vm_compute; reflexivity).
  rewrite forallb_forall in Hall. apply Hall.
  apply list_elem_of_In, elem_of_seqZ. lia.
Qed.

Ltac div_mod_facts x k :=
  pose proof (Z.div_mod x k ltac:(lia));
  pose proof (Z.mod_pos_bound x k ltac:(lia)).

Lemma ord2ymd_range (n : Z) :
  1 <= n <= Datetime.MAXORDINAL →
  ∃ y m d, Datetime.ord2ymd n = (y, m, d)
    ∧ 1 <= y <= 9999 ∧ 1 <= m <= 12 ∧ 1 <= d <= Datetime.days_in_month y m
    ∧ Datetime.ymd2ord y m d = n.
Proof.
  intros Hn. unfold Datetime.ord2ymd.
  unfold Datetime.MAXORDINAL, Datetime.DI400Y, Datetime.DI100Y, Datetime.DI4Y in *.
  set (n400 := (n - 1) / 146097).
  set (r400 := (n - 1) mod 146097).
  set (n100 := r400 / 36524).
  set (r100 := r400 mod 36524).
  set (n4 := r100 / 1461).
  set (r4 := r100 mod 1461).
  set (n1 := r4 / 365).
  set (r1 := r4 mod 365).
  cbv zeta.
  assert (H400 : n - 1 = 146097 * n400 + r400 ∧ 0 <= r400 < 146097)
    by (subst n400 r400; split; [apply Z.div_mod|apply Z.mod_pos_bound]; lia).
  assert (H100 : r400 = 36524 * n100 + r100 ∧ 0 <= r100 < 36524)
    by (subst n100 r100; split; [apply Z.div_mod|apply Z.mod_pos_bound]; lia).
  assert (H4 : r100 = 1461 * n4 + r4 ∧ 0 <= r4 < 1461)
    by (subst n4 r4; split; [apply Z.div_mod|apply Z.mod_pos_bound]; lia).
  assert (H1 : r4 = 365 * n1 + r1 ∧ 0 <= r1 < 365)
    by (subst n1 r1; split; [apply Z.div_mod|apply Z.mod_pos_bound]; lia).
  clearbody n400 r400 n100 r100 n4 r4 n1 r1.
  set (y := n400 * 400 + 1 + (n100 * 100 + n4 * 4 + n1)).
  destruct ((n1 =? 4) || (n100 =? 4)) eqn:Hend.
  - eexists _, _, _. split; [reflexivity|].
    assert (Hdec : ∀ y, Datetime.days_in_month y 12 = 31) by done.
    rewrite Hdec.
    assert (Hleap : Datetime.is_leap (y - 1) = true).
    { unfold Datetime.is_leap. subst y.
      div_mod_facts (n400 * 400 + 1 + (n100 * 100 + n4 * 4 + n1) - 1) 4.
      div_mod_facts (n400 * 400 + 1 + (n100 * 100 + n4 * 4 + n1) - 1) 100.
      div_mod_facts (n400 * 400 + 1 + (n100 * 100 + n4 * 4 + n1) - 1) 400.
      lia. }
    unfold Datetime.ymd2ord, Datetime.days_before_month, Datetime.days_before_year.
    rewrite Hleap. cbv zeta.
    change (Datetime.at_index Datetime.DAYS_BEFORE_MONTH 12) with 334.
    change ((2 <? 12) && true) with true. cbv iota.
    div_mod_facts (y - 1 - 1) 4. div_mod_facts (y - 1 - 1) 100.
    div_mod_facts (y - 1 - 1) 400.
    subst y. lia.
  - set (leapyear := (n1 =? 3) && (negb (n4 =? 24) || (n100 =? 3))).
    assert (Hleap : Datetime.is_leap y = leapyear).
    { unfold Datetime.is_leap. subst y leapyear.
      div_mod_facts (n400 * 400 + 1 + (n100 * 100 + n4 * 4 + n1)) 4.
      div_mod_facts (n400 * 400 + 1 + (n100 * 100 + n4 * 4 + n1)) 100.
      div_mod_facts (n400 * 400 + 1 + (n100 * 100 + n4 * 4 + n1)) 400.
      lia. }
    pose proof (month_day_range leapyear r1 ltac:(lia)) as Hmd.
    unfold month_day_ok, month_day in Hmd. cbv zeta in Hmd.
    destruct (if r1 <? _ then _ else _) as [m p] eqn:Hmp.
    eexists _, _, _. split; [reflexivity|].
    unfold Datetime.days_in_month, Datetime.ymd2ord, Datetime.days_before_month,
      Datetime.days_before_year.
    rewrite Hleap. cbv zeta.
    div_mod_facts (y - 1) 4. div_mod_facts (y - 1) 100. div_mod_facts (y - 1) 400.
    subst y. lia.
Qed.

Lemma sub_days_wf (now d : Datetime.datetime) (days : Z) :
  Datetime.wf now = true → Datetime.sub_days now days = Ok d →
  Datetime.wf d = true.
Proof.
  intros W. unfold Datetime.sub_days.
  destruct ((0 <? _) && (_ <=? Datetime.MAXORDINAL)) eqn:Hord; [|done].
  destruct (ord2ymd_range (Datetime.toordinal now - days) ltac:(lia))
    as (y & m & dd & -> & Hy & Hm & Hd & _).
  intros [= <-]. apply wf_bounds in W.
  unfold Datetime.wf. simpl. lia.
Qed.

(** [sub_days] moves the date back by exactly [days] days and keeps the
    time of day. *)
Lemma sub_days_toordinal (now d : Datetime.datetime) (days : Z) :
  Datetime.sub_days now days = Ok d →
  Datetime.toordinal d = Datetime.toordinal now - days
  ∧ Datetime.hour d = Datetime.hour now ∧ Datetime.minute d = Datetime.minute now
  ∧ Datetime.second d = Datetime.second now
  ∧ Datetime.microsecond d = Datetime.microsecond now.
Proof.
  unfold Datetime.sub_days.
  destruct ((0 <? _) && (_ <=? Datetime.MAXORDINAL)) eqn:Hord; [|done].
  destruct (ord2ymd_range (Datetime.toordinal now - days) ltac:(lia))
    as (y & m & dd & -> & _ & _ & _ & Hord').
  intros [= <-]. by unfold Datetime.toordinal.
Qed.

Lemma days_through_month (y m : Z) :
  1 <= m <= 12 →
  Datetime.days_before_month y m + Datetime.days_in_month y m
  <= 365 + (if Datetime.is_leap y then 1 else 0)
  ∧ 0 <= Datetime.days_before_month y m.
Proof.
  intros Hm.
  unfold Datetime.days_before_month, Datetime.days_in_month, Datetime.at_index.
  assert (Hcases : m = 1 ∨ m = 2 ∨ m = 3 ∨ m = 4 ∨ m = 5 ∨ m = 6 ∨ m = 7
                   ∨ m = 8 ∨ m = 9 ∨ m = 10 ∨ m = 11 ∨ m = 12) by lia.
  destruct (Datetime.is_leap y);
    repeat (destruct Hcases as [->|Hcases]); try subst m; simpl; lia.
Qed.

Lemma days_before_year_next (y : Z) :
  Datetime.days_before_year y + 365 + (if Datetime.is_leap y then 1 else 0)
  = Datetime.days_before_year (y + 1).
Proof.
  unfold Datetime.days_before_year, Datetime.is_leap. cbv zeta.
  replace (y + 1 - 1) with y by lia.
  div_mod_facts y 4. div_mod_facts y 100. div_mod_facts y 400.
  div_mod_facts (y - 1) 4. div_mod_facts (y - 1) 100. div_mod_facts (y - 1) 400.
  destruct (Z.eqb_spec (y mod 4) 0), (Z.eqb_spec (y mod 100) 0),
    (Z.eqb_spec (y mod 400) 0); simpl; lia.
Qed.

Lemma days_before_year_bounds (y : Z) :
  1 <= y <= 10000 → 0 <= Datetime.days_before_year y <= Datetime.MAXORDINAL.
Proof.
  intros Hy. unfold Datetime.days_before_year, Datetime.MAXORDINAL. cbv zeta.
  div_mod_facts (y - 1) 4. div_mod_facts (y - 1) 100. div_mod_facts (y - 1) 400.
  lia.
Qed.

Lemma toordinal_range (d : Datetime.datetime) :
  Datetime.wf d = true → 1 <= Datetime.toordinal d <= Datetime.MAXORDINAL.
Proof.
  intros W. apply wf_bounds in W as (Hy & Hm & Hd & _).
  pose proof (days_through_month (Datetime.year d) (Datetime.month d) Hm) as [Hs H0].
  pose proof (days_before_year_next (Datetime.year d)) as Hnext.
  pose proof (days_before_year_bounds (Datetime.year d) ltac:(lia)).
  pose proof (days_before_year_bounds (Datetime.year d + 1) ltac:(lia)).
  unfold Datetime.toordinal, Datetime.ymd2ord. lia.
Qed.

Lemma sub_days_Ok (now : Datetime.datetime) (days : Z) :
  Datetime.wf now = true → 0 <= days < Datetime.toordinal now →
  ∃ d, Datetime.sub_days now days = Ok d.
Proof.
  intros W Hd. pose proof (toordinal_range now W) as Hr.
  unfold Datetime.sub_days.
  destruct ((0 <? _) && (_ <=? Datetime.MAXORDINAL)) eqn:Hord; [|lia].
  destruct (Datetime.ord2ymd _) as [[y m] dd]. eauto.
Qed.

(** ** Running programs *)

Lemma bind_run {A B} (m : prog A) (k : A → prog B) (w : world) :
  (m ≫= k) w
  = match m w with
    | (Ok a, w') => k a w'
    | (Raise e, w') => (Raise e, w')
    end.
Proof. reflexivity. Qed.

Lemma ret_run {A} (a : A) (w : world) : (mret a : prog A) w = (Ok a, w).
Proof. reflexivity. Qed.

(** ** The history store *)

Lemma strs_of_dict (h : history) :
  map_Forall (fun _ v => is_Some (as_str v)) (PyStr <$> h)
  ∧ omap as_str (PyStr <$> h) = h.
Proof.
  split.
  - intros k v. rewrite lookup_fmap.
    destruct (h !! k); intros [= <-]. by eexists.
  - apply map_eq. intros k. rewrite lookup_omap, lookup_fmap.
    by destruct (h !! k).
Qed.

(** On a history, the pruning is the filter of the dict comprehension. *)
Lemma clean_old_entries_with_dict days now (h : history) :
  clean_old_entries_with days now h
  = match Datetime.sub_days now days with
    | Ok d =>
        Ok (filter (fun kv : string * string =>
                      str_gt kv.2 (Datetime.isoformat d)) h)
    | Raise e => Raise e
    end.
Proof.
  unfold clean_old_entries_with, dict_of.
  destruct (Datetime.sub_days now days) as [d|e]; [|done]. cbv zeta.
  destruct (strs_of_dict h) as [Hall Hstrs].
  by rewrite decide_True, Hstrs.
Qed.

Lemma clean_old_entries_with_Ok days now (h h' : history) :
  clean_old_entries_with days now h = Ok h' ↔
  ∃ d, Datetime.sub_days now days = Ok d
       ∧ h' = filter (fun kv : string * string =>
                        str_gt kv.2 (Datetime.isoformat d)) h.
Proof.
  rewrite clean_old_entries_with_dict.
  destruct (Datetime.sub_days now days) as [d|e]; split.
  - intros [= <-]. by exists d.
  - intros (d' & [= <-] & ->). done.
  - done.
  - by intros (d' & ? & _).
Qed.

Lemma clean_old_entries_run E (h : pyobj) w :
  clean_old_entries E h w
  = (clean_old_entries_with HISTORY_RETENTION_DAYS (clock E (ticks w)) h,
     mk_world (store w) (S (ticks w)) (log w)).
Proof. reflexivity. Qed.

Example clean_old_entries_sample :
  clean_old_entries_with HISTORY_RETENTION_DAYS sample_now sample_history
  = Ok {[ "https://recent.com" := "2024-03-14T09:30:00.250000" ]}.
Proof. vm_compute. reflexivity. Qed.

(** On timestamps printed by [isoformat], [>] on the strings is the
    chronological order. *)
Lemma str_gt_isoformat (t d : Datetime.datetime) :
  Datetime.wf t = true → Datetime.wf d = true →
  str_gt (Datetime.isoformat t) (Datetime.isoformat d) = Datetime.ltb d t.
Proof.
  intros Wt Wd. unfold str_gt, String.ltb, Datetime.ltb.
  by rewrite isoformat_compare.
Qed.

(** C4. Pruning is idempotent: with the clock reading [now] fixed, pruning
    the pruned mapping again, for the same retention window, gives the
    pruned mapping. *)
Theorem clean_old_entries_idempotent (days : Z) (now : Datetime.datetime)
    (h h' : history) :
  clean_old_entries_with days now h = Ok h' →
  clean_old_entries_with days now h' = Ok h'
  ∧ (days = HISTORY_RETENTION_DAYS →
     ∀ E w w', clock E (ticks w) = now → clock E (ticks w') = now →
       (clean_old_entries E h w).1 = Ok h'
       ∧ (clean_old_entries E h' w').1 = Ok h').
Proof.
  intros Hclean.
  assert (Hagain : clean_old_entries_with days now h' = Ok h').
  { apply clean_old_entries_with_Ok in Hclean as (d & Hd & ->).
    apply clean_old_entries_with_Ok. exists d. split; [done|].
    apply map_eq. intros u. apply option_eq. intros ts.
    rewrite !map_lookup_filter_Some. tauto. }
  split; [done|].
  intros -> E w w' Hw Hw'. rewrite !clean_old_entries_run. cbn [fst].
  by rewrite Hw, Hw'.
Qed.

Lemma clean_old_entries_idempotent_witness :
  clean_old_entries_with HISTORY_RETENTION_DAYS sample_now
    ({[ "https://recent.com" := "2024-03-14T09:30:00.250000" ]} : history)
  = Ok {[ "https://recent.com" := "2024-03-14T09:30:00.250000" ]}.
Proof.
  eapply proj1.
  apply (clean_old_entries_idempotent HISTORY_RETENTION_DAYS sample_now
           sample_history).
  vm_compute. reflexivity.
Defined.

(** C9. Pruning never adds or alters entries: every key of the pruned
    mapping is a key of the mapping pruned, with the timestamp it had
    there. *)
Theorem clean_old_entries_submap (days : Z) (now : Datetime.datetime)
    (h h' : history) :
  clean_old_entries_with days now h = Ok h' →
  h' ⊆ h
  ∧ (∀ u ts, h' !! u = Some ts → h !! u = Some ts)
  ∧ (days = HISTORY_RETENTION_DAYS →
     ∀ E w, clock E (ticks w) = now → (clean_old_entries E h w).1 = Ok h').
Proof.
  intros Hclean. split_and!.
  - apply clean_old_entries_with_Ok in Hclean as (d & Hd & ->).
    apply map_filter_subseteq.
  - apply clean_old_entries_with_Ok in Hclean as (d & Hd & ->).
    intros u ts Hu. by apply map_lookup_filter_Some in Hu as [? _].
  - intros -> E w Hw. rewrite clean_old_entries_run. cbn [fst]. by rewrite Hw.
Qed.

Lemma clean_old_entries_submap_witness :
  ({[ "https://recent.com" := "2024-03-14T09:30:00.250000" ]} : history)
    ⊆ sample_history.
Proof.
  eapply proj1.
  apply (clean_old_entries_submap HISTORY_RETENTION_DAYS sample_now).
  vm_compute. reflexivity.
Defined.

(** C5. [clean_old_entries] is a function of the mapping and of the clock
    reading alone: it reads the clock and touches neither the history file
    nor any collaborator.  When the clock reading [now] is at least
    [days] days after 0001-01-01, the result holds exactly the entries of
    the mapping whose timestamp is greater, as a string, than the
    ISO timestamp of [now] minus [days] days; for a timestamp printed by
    [isoformat] that is: exactly when its datetime is later than [now]
    minus [days] days. *)
Theorem clean_old_entries_keeps_newer (days : Z) (now : Datetime.datetime)
    (h : history) :
  Datetime.wf now = true →
  0 <= days < Datetime.toordinal now →
  ∃ d h',
    Datetime.sub_days now days = Ok d
    ∧ Datetime.toordinal d = Datetime.toordinal now - days
    ∧ clean_old_entries_with days now h = Ok h'
    ∧ (∀ u ts, h' !! u = Some ts ↔
               h !! u = Some ts ∧ str_gt ts (Datetime.isoformat d) = true)
    ∧ (∀ u t, Datetime.wf t = true →
              (h' !! u = Some (Datetime.isoformat t) ↔
               h !! u = Some (Datetime.isoformat t) ∧ Datetime.ltb d t = true))
    ∧ (∀ E w, clock E (ticks w) = now →
              clean_old_entries E h w
              = (clean_old_entries_with HISTORY_RETENTION_DAYS now h,
                 mk_world (store w) (S (ticks w)) (log w))).
Proof.
  intros W Hdays.
  destruct (sub_days_Ok now days W Hdays) as [d Hd].
  pose proof (sub_days_wf now d days W Hd) as Wd.
  pose proof (sub_days_toordinal now d days Hd) as [Hord _].
  exists d, (filter (fun kv : string * string =>
                       str_gt kv.2 (Datetime.isoformat d)) h).
  assert (Hlook : ∀ u ts,
    filter (fun kv : string * string =>
              str_gt kv.2 (Datetime.isoformat d)) h !! u = Some ts ↔
    h !! u = Some ts ∧ str_gt ts (Datetime.isoformat d) = true).
  { intros u ts. rewrite map_lookup_filter_Some. simpl.
    by rewrite Is_true_true. }
  split_and!; try done.
  - apply clean_old_entries_with_Ok. by exists d.
  - intros u t Wt. rewrite Hlook. by rewrite str_gt_isoformat.
  - intros E w <-. apply clean_old_entries_run.
Qed.

Lemma clean_old_entries_keeps_newer_witness :
  ∃ d h',
    Datetime.sub_days sample_now HISTORY_RETENTION_DAYS = Ok d
    ∧ Datetime.toordinal d = Datetime.toordinal sample_now - HISTORY_RETENTION_DAYS
    ∧ clean_old_entries_with HISTORY_RETENTION_DAYS sample_now sample_history = Ok h'
    ∧ (∀ u ts, h' !! u = Some ts ↔
               sample_history !! u = Some ts
               ∧ str_gt ts (Datetime.isoformat d) = true)
    ∧ (∀ u t, Datetime.wf t = true →
              (h' !! u = Some (Datetime.isoformat t) ↔
               sample_history !! u = Some (Datetime.isoformat t)
               ∧ Datetime.ltb d t = true))
    ∧ (∀ E w, clock E (ticks w) = sample_now →
              clean_old_entries E sample_history w
              = (clean_old_entries_with HISTORY_RETENTION_DAYS sample_now
                   sample_history,
                 mk_world (store w) (S (ticks w)) (log w))).
Proof.
  apply (clean_old_entries_keeps_newer HISTORY_RETENTION_DAYS sample_now
           sample_history).
  - reflexivity.
  - vm_compute. split; [discriminate|reflexivity].
Defined.

Lemma load_posted_articles_run (w : world) :
  load_posted_articles w = (Ok (loaded (store w)), w).
Proof. by destruct w as [[|e|j] t l]. Qed.

(** [load_posted_articles] never raises and leaves the world as it was: it
    returns the document as it decodes when the file is there and is JSON
    (the persisted mapping when the file holds one), and an empty dict when
    the file is absent or reading it fails, whatever the exception. *)
Lemma load_posted_articles_cases (w : world) :
  (∀ j, store w = Document j → load_posted_articles w = (Ok j, w))
  ∧ (∀ h : history, store w = Document h →
       load_posted_articles w = (Ok (dict_of h), w))
  ∧ (store w = NoFile → load_posted_articles w = (Ok (dict_of ∅), w))
  ∧ (∀ e, store w = Unreadable e →
       load_posted_articles w = (Ok (dict_of ∅), w))
  ∧ ∃ v, load_posted_articles w = (Ok v, w).
Proof.
  rewrite load_posted_articles_run. split_and!.
  - by intros j ->.
  - by intros h ->.
  - by intros ->.
  - by intros e ->.
  - by eexists.
Qed.

(** A loaded object that is not a dict of strings makes the pruning
    raise, whatever the clock reads. *)
Lemma clean_old_entries_with_wrong_shape days now (j : pyobj) :
  (∀ h : history, j ≠ dict_of h) →
  ∃ e, clean_old_entries_with days now j = Raise e.
Proof.
  intros Hj. unfold clean_old_entries_with.
  destruct (Datetime.sub_days now days) as [d|e]; [|by eexists]. cbv zeta.
  destruct j as [| | | | | |items]; try by eexists.
  destruct (decide (map_Forall _ items)) as [Hall|]; [|by eexists].
  destruct (Hj (omap as_str items)). unfold dict_of. f_equal.
  apply map_eq. intros k. rewrite lookup_fmap, lookup_omap.
  destruct (items !! k) as [v|] eqn:Hk; [|done].
  destruct (Hall k v Hk) as [s Hs]. by destruct v.
Qed.

(** ** The article selector *)

Lemma truthy_Some (o : option string) :
  truthy o = true ↔ ∃ u, o = Some u ∧ u ≠ "".
Proof.
  destruct o as [u|]; simpl.
  - rewrite negb_true_iff, String.eqb_neq. split.
    + intros Hne. by exists u.
    + by intros (u' & [= <-] & Hne).
  - split; [done|]. by intros (u' & ? & _).
Qed.

Lemma is_article_posted_false (u : string) (h : history) :
  is_article_posted u h = false ↔ h !! u = None.
Proof.
  unfold is_article_posted. rewrite bool_decide_eq_false.
  by rewrite eq_None_not_Some.
Qed.

Lemma usable_spec (h : history) (a : article) :
  usable h a = true ↔ ∃ u, url a = Some u ∧ u ≠ "" ∧ h !! u = None.
Proof.
  unfold usable. rewrite andb_true_iff, negb_true_iff, truthy_Some.
  rewrite is_article_posted_false. split.
  - intros [(u & Hu & Hne) Hh]. rewrite Hu in Hh. by exists u.
  - intros (u & Hu & Hne & Hh). rewrite Hu. eauto.
Qed.

Lemma first_unposted_cons (a : article) (arts : list article) (h : history) :
  first_unposted (a :: arts) h
  = if usable h a then candidate_of a else first_unposted arts h.
Proof.
  cbn [first_unposted]. unfold usable, py_not.
  by destruct (truthy (url a)), (is_article_posted (the (url a)) h).
Qed.

Lemma first_unposted_find (arts : list article) (h : history) :
  first_unposted arts h = selectCandidate_spec arts h.
Proof.
  unfold selectCandidate_spec.
  induction arts as [|a arts IH]; [done|].
  rewrite first_unposted_cons. cbn [List.find].
  by destruct (usable h a).
Qed.

Lemma first_unposted_skips (pre : list article) (a : article)
    (post : list article) (h : history) :
  Forall (fun b => usable h b = false) pre → usable h a = true →
  first_unposted (pre ++ a :: post) h = candidate_of a.
Proof.
  intros Hpre Ha. induction Hpre as [|b pre Hb _ IH]; simpl app.
  - by rewrite first_unposted_cons, Ha.
  - by rewrite first_unposted_cons, Hb.
Qed.

Lemma first_unposted_none (arts : list article) (h : history) :
  first_unposted arts h = no_candidate ↔
  Forall (fun b => usable h b = false) arts.
Proof.
  induction arts as [|a arts IH]; [by split; [constructor|]|].
  rewrite first_unposted_cons, Forall_cons.
  destruct (usable h a) eqn:Ha.
  - split; [|by intros [? _]].
    apply usable_spec in Ha as (u & Hu & _). unfold candidate_of, no_candidate.
    rewrite Hu. done.
  - rewrite IH. split; [by intros ?; split|by intros [_ ?]].
Qed.

Lemma first_unposted_url (arts : list article) (h : history) t u d :
  first_unposted arts h = (t, Some u, d) →
  u ≠ "" ∧ h !! u = None ∧ ∃ a, a ∈ arts ∧ url a = Some u.
Proof.
  induction arts as [|a arts IH]; [done|].
  rewrite first_unposted_cons. destruct (usable h a) eqn:Ha.
  - intros [= <- Hu <-]. apply usable_spec in Ha as (u' & Hu' & Hne & Hh).
    assert (u' = u) as -> by congruence.
    split_and!; try done. exists a. split; [left|done].
  - intros (? & ? & a' & ? & ?)%IH. split_and!; try done.
    exists a'. split; [by right|done].
Qed.

Lemma fetch_daily_news_run (E : env) (api_key : string) (h : history)
    (w : world) :
  fetch_daily_news E api_key h w
  = (selection (news_get E (news_request api_key)) h,
     mk_world (store w) (ticks w)
       (log w ++ [NewsGet (news_request api_key)
                    (news_get E (news_request api_key))])).
Proof.
  unfold fetch_daily_news, selection, try_except, call. rewrite bind_run.
  fold (news_request api_key).
  destruct (news_get E (news_request api_key)) as [resp|e].
  - by destruct (default [] (articles resp)).
  - by destruct (is_RequestException e).
Qed.

(** C3. When the provider answers with a list, the selector returns what
    the scan of that list in the order returned gives: the first item whose
    url is a non-empty string that is not a key of the history, items with
    a missing or empty url being skipped; so the url it returns is never a
    key of the history. *)
Theorem fetch_daily_news_first_unposted (E : env) (api_key : string)
    (h : history) (w : world) (resp : news_json) (arts : list article) :
  news_get E (news_request api_key) = Ok resp →
  articles resp = Some arts →
  (fetch_daily_news E api_key h w).1 = Ok (first_unposted arts h)
  ∧ first_unposted arts h = selectCandidate_spec arts h
  ∧ (∀ a, usable h a = true ↔ ∃ u, url a = Some u ∧ u ≠ "" ∧ h !! u = None)
  ∧ (∀ pre a post, arts = pre ++ a :: post →
       Forall (fun b => usable h b = false) pre → usable h a = true →
       first_unposted arts h = (title a, url a, py_or (description a) (title a)))
  ∧ (Forall (fun b => usable h b = false) arts →
       first_unposted arts h = (None, None, None))
  ∧ (∀ t u d, first_unposted arts h = (t, Some u, d) →
       u ≠ "" ∧ h !! u = None ∧ ∃ a, a ∈ arts ∧ url a = Some u).
Proof.
  intros Hget Harts. split_and!.
  - rewrite fetch_daily_news_run, Hget. unfold selection. by rewrite Harts.
  - apply first_unposted_find.
  - intros a. apply usable_spec.
  - intros pre a post -> Hpre Ha. by apply first_unposted_skips.
  - apply first_unposted_none.
  - apply first_unposted_url.
Qed.

Lemma fetch_daily_news_first_unposted_witness :
  (fetch_daily_news sample_env "key" sample_history (mk_world NoFile 0 [])).1
  = Ok (Some "New News", Some "https://new.com", Some "New").
Proof.
  apply (fetch_daily_news_first_unposted sample_env "key" sample_history
           (mk_world NoFile 0 []) (mk_news_json (Some sample_articles))
           sample_articles); reflexivity.
Defined.

(** C7. The selector returns [(None, None, None)], without raising, exactly
    when the provider call raised a [RequestException] (a network or HTTP
    error), or the list it returned is empty, or every item of the list
    that has a url is a key of the history. *)
Theorem fetch_daily_news_no_candidate (E : env) (api_key : string)
    (h : history) (w : world) :
  (fetch_daily_news E api_key h w).1 = Ok (None, None, None) ↔
  (∃ e, news_get E (news_request api_key) = Raise e
        ∧ is_RequestException e = true)
  ∨ (∃ resp, news_get E (news_request api_key) = Ok resp
        ∧ default [] (articles resp) = [])
  ∨ (∃ resp, news_get E (news_request api_key) = Ok resp
        ∧ ∀ a, a ∈ default [] (articles resp) → truthy (url a) = true →
               is_Some (h !! the (url a))).
Proof.
  rewrite fetch_daily_news_run. cbn [fst]. unfold selection.
  destruct (news_get E (news_request api_key)) as [resp|e].
  - fold no_candidate. split.
    + intros [= Hnone]. right. right. exists resp. split; [done|].
      apply first_unposted_none in Hnone.
      intros a Ha Hurl. rewrite Forall_forall in Hnone.
      specialize (Hnone a Ha). unfold usable in Hnone.
      rewrite Hurl in Hnone. simpl in Hnone.
      apply negb_false_iff in Hnone. unfold is_article_posted in Hnone.
      by apply bool_decide_eq_true in Hnone.
    + intros [(e & [=] & _)|[(resp' & [= <-] & Hnil)|(resp' & [= <-] & Hall)]].
      * by rewrite Hnil.
      * f_equal. apply first_unposted_none, Forall_forall.
        intros a Ha. unfold usable.
        destruct (truthy (url a)) eqn:Hurl; [|done].
        specialize (Hall a Ha Hurl). simpl.
        apply negb_false_iff. unfold is_article_posted.
        by apply bool_decide_eq_true.
  - split.
    + destruct (is_RequestException e) eqn:He; [|done].
      intros _. left. by exists e.
    + intros [(e' & [= <-] & ->)|[(resp & [=] & _)|(resp & [=] & _)]]. done.
Qed.

(** ** The media generator *)

(** C8. For the empty directive the media generator returns [None] and
    leaves the world as it was: no collaborator is called.  For a non-empty
    directive it makes exactly one call, asking for one image ([n = 1]) of
    [IMAGE_MODEL] for that directive, and returns the location of the first
    image of the answer, or [None] when the call raises or answers with no
    image. *)
Theorem generate_ai_image_contract (E : env) (prompt : string) (w : world) :
  prompt ≠ "" →
  generate_ai_image E "" w = (Ok None, w)
  ∧ (let q := mk_image_request IMAGE_MODEL prompt 1 in
     generate_ai_image E prompt w
     = (Ok (image_location (images_generate E q)),
        mk_world (store w) (ticks w)
          (log w ++ [ImagesGenerate q (images_generate E q)]))
     ∧ n q = 1
     ∧ (∀ resp loc rest, images_generate E q = Ok resp →
          data resp = loc :: rest → image_location (images_generate E q) = loc)
     ∧ (∀ resp, images_generate E q = Ok resp → data resp = [] →
          image_location (images_generate E q) = None)
     ∧ (∀ e, images_generate E q = Raise e →
          image_location (images_generate E q) = None)).
Proof.
  intros Hne. split; [done|]. cbv zeta. split_and!.
  - unfold generate_ai_image. apply String.eqb_neq in Hne as ->.
    unfold try_except, call. rewrite bind_run.
    destruct (images_generate E _) as [resp|e]; [|done].
    rewrite bind_run. unfold lift.
    by destruct resp as [[|loc rest]].
  - done.
  - intros resp loc rest Hr Hd. rewrite Hr. simpl. by rewrite Hd.
  - intros resp Hr Hd. rewrite Hr. simpl. by rewrite Hd.
  - by intros e ->.
Qed.

Lemma generate_ai_image_contract_witness :
  generate_ai_image sample_env "" (mk_world NoFile 0 [])
  = (Ok None, mk_world NoFile 0 [])
  ∧ generate_ai_image sample_env "a lighthouse at dusk" (mk_world NoFile 0 [])
    = (Ok (Some "https://images.example/1.jpg"),
       mk_world NoFile 0
         [ImagesGenerate
            (mk_image_request IMAGE_MODEL "a lighthouse at dusk" 1)
            (Ok (mk_image_response [Some "https://images.example/1.jpg"]))]).
Proof.
  destruct (generate_ai_image_contract sample_env "a lighthouse at dusk"
              (mk_world NoFile 0 [])) as (H0 & H1 & _); [done|].
  split; [exact H0|exact H1].
Defined.

(** ** The orchestrator *)

Lemma py_not_false_the (o : option string) :
  py_not o = false → String.eqb (the o) "" = false ∧ o = Some (the o).
Proof.
  unfold py_not. rewrite negb_false_iff. destruct o as [s|]; simpl; [|done].
  rewrite negb_true_iff. done.
Qed.

Lemma generate_dalle_prompt_run (E : env) (d : string) (w : world) :
  generate_dalle_prompt E d w
  = (Ok (chat_text (chat_completions_create E (dalle_prompt_request d))),
     mk_world (store w) (ticks w)
       (log w ++ [ChatCreate (dalle_prompt_request d)
                    (chat_completions_create E (dalle_prompt_request d))])).
Proof.
  unfold generate_dalle_prompt, try_except, call. rewrite bind_run.
  destruct (chat_completions_create E _) as [resp|e]; [|done].
  rewrite bind_run. unfold lift. by destruct resp as [[|c rest]].
Qed.

Lemma generate_tweet_text_run (E : env) (d u : string) (w : world) :
  generate_tweet_text E d u w
  = (Ok (chat_text (chat_completions_create E (tweet_text_request d u))),
     mk_world (store w) (ticks w)
       (log w ++ [ChatCreate (tweet_text_request d u)
                    (chat_completions_create E (tweet_text_request d u))])).
Proof.
  unfold generate_tweet_text, try_except, call. rewrite bind_run.
  destruct (chat_completions_create E _) as [resp|e]; [|done].
  rewrite bind_run. unfold lift. by destruct resp as [[|c rest]].
Qed.

Lemma generate_ai_image_run (E : env) (prompt : string) (w : world) :
  String.eqb prompt "" = false →
  generate_ai_image E prompt w
  = (Ok (image_location (images_generate E (mk_image_request IMAGE_MODEL prompt 1))),
     mk_world (store w) (ticks w)
       (log w ++ [ImagesGenerate (mk_image_request IMAGE_MODEL prompt 1)
                    (images_generate E (mk_image_request IMAGE_MODEL prompt 1))])).
Proof.
  intros Hne. unfold generate_ai_image. rewrite Hne.
  unfold try_except, call. rewrite bind_run.
  destruct (images_generate E _) as [resp|e]; [|done].
  rewrite bind_run. unfold lift. by destruct resp as [[|c rest]].
Qed.

(** [post_tweet] never raises and touches neither the history file nor the
    clock. *)
Lemma post_tweet_run (E : env) (tweet_text image_url : string)
    (news_title : option string) (news_url : string) (w : world) :
  post_tweet E tweet_text image_url news_title news_url w
  = (Ok tt, mk_world (store w) (ticks w)
              (log w ++ publish_events E tweet_text image_url)).
Proof.
  unfold post_tweet, upload_image_to_twitter, publish_events, try_except, call.
  rewrite !bind_run. cbn [store ticks log].
  destruct (image_get E image_url) as [image_data|e]; [|done].
  rewrite !bind_run. cbn [store ticks log].
  destruct (media_upload E image_data) as [media_id|e];
    [|by rewrite <- app_assoc].
  rewrite ret_run. cbn [the default]. unfold py_not, truthy, id.
  rewrite negb_involutive.
  destruct (String.eqb media_id "") eqn:Hid; [by rewrite <- app_assoc|].
  rewrite !bind_run. cbn [store ticks log].
  rewrite <- !app_assoc. cbn [app].
  destruct (create_tweet E _) as [resp|e]; [|done].
  by destruct (tweet_id resp).
Qed.

Lemma main_run (E : env) (st : file_state) :
  run E st = (Ok tt, run_world E st).
Proof.
  unfold run, run_world, main, try_except.
  rewrite bind_run, load_posted_articles_run.
  rewrite bind_run, clean_old_entries_run. cbn [store ticks log].
  destruct (clean_old_entries_with _ _ _) as [h|e]; [|done].
  cbn [lift]. rewrite bind_run, fetch_daily_news_run. cbn [store ticks log app].
  destruct (selection _ h) as [[[t u] d]|e]; [|done].
  destruct (py_not u || py_not d) eqn:Hsel; [done|].
  apply orb_false_iff in Hsel as [Hu Hd].
  rewrite bind_run, generate_dalle_prompt_run. cbn [store ticks log app].
  destruct (py_not (chat_text _)) eqn:H1; [done|].
  rewrite bind_run, generate_ai_image_run
    by (by apply py_not_false_the in H1 as [? _]).
  cbn [store ticks log app].
  destruct (py_not (image_location _)) eqn:H2; [done|].
  rewrite bind_run, generate_tweet_text_run. cbn [store ticks log app].
  destruct (py_not (chat_text (chat_completions_create E (tweet_text_request _ _))))
    eqn:H3; [done|].
  rewrite bind_run, post_tweet_run. cbn [store ticks log app].
  unfold mark_article_posted, datetime_now, save_posted_articles,
    file_dump_json, try_except.
  rewrite !bind_run. cbn [store ticks log app].
  rewrite ret_run, bind_run. cbn [store ticks log app]. unfold written.
  by destruct (file_write E _).
Qed.

Lemma publish_events_no_generation (E : env) (tweet_text image_url : string) :
  generation_failed (publish_events E tweet_text image_url) = false
  ∧ committed (publish_events E tweet_text image_url) = false.
Proof.
  unfold publish_events, generation_failed, committed.
  destruct (image_get E image_url) as [image_data|e]; [|done].
  destruct (media_upload E image_data) as [media_id|e]; [|done].
  by destruct (String.eqb media_id "").
Qed.

Lemma run_trace (E : env) (st : file_state) : trace E st = log (run_world E st).
Proof. unfold trace. by rewrite main_run. Qed.

Lemma run_store (E : env) (st : file_state) :
  store_after E st = store (run_world E st).
Proof. unfold store_after. by rewrite main_run. Qed.

(** C6 fails on the code for a file that is JSON but not a mapping:
    [json.load] succeeds, so [load_posted_articles] returns the decoded
    list, which is no mapping and not the empty one; [clean_old_entries]
    then raises on it and [main] ends every run there, before the provider
    is called.  An unreadable file, for which the empty mapping is
    returned, lets the same run go on. *)
Theorem load_returns_wrong_shape :
  load_posted_articles (mk_world (Document list_document) 0 [])
  = (Ok list_document, mk_world (Document list_document) 0 [])
  ∧ (∀ h : history, list_document ≠ dict_of h)
  ∧ (∀ E, run E (Document list_document)
          = (Ok tt, mk_world (Document list_document) 1 []))
  ∧ load_posted_articles (mk_world (Unreadable JSONDecodeError) 0 [])
    = (Ok (dict_of ∅), mk_world (Unreadable JSONDecodeError) 0 [])
  ∧ committed (trace sample_env (Unreadable JSONDecodeError)) = true.
Proof.
  split_and!.
  - reflexivity.
  - intros h. discriminate.
  - intros E. rewrite main_run. f_equal. unfold run_world. cbn [loaded].
    destruct (clean_old_entries_with_wrong_shape HISTORY_RETENTION_DAYS
                (clock E 0) list_document) as [e ->]; [|done].
    intros h. discriminate.
  - reflexivity.
  - vm_compute. reflexivity.
Qed.

(** A run never raises: the handler at the top of [main] absorbs every
    exception. *)
Lemma main_never_raises (E : env) (st : file_state) : (run E st).1 = Ok tt.
Proof. by rewrite main_run. Qed.

(** The history file is touched by the commit only. *)
Lemma store_unchanged_without_commit (E : env) (st : file_state) :
  committed (trace E st) = false → store_after E st = st.
Proof.
  rewrite run_trace, run_store. unfold run_world.
  destruct (clean_old_entries_with _ _ _) as [h|e]; [|done].
  destruct (selection _ h) as [[[t u] d]|e]; [|done]. cbv zeta.
  destruct (py_not u || py_not d); [done|].
  destruct (py_not (chat_text _)); [done|].
  destruct (py_not (image_location _)); [done|].
  destruct (py_not (chat_text _)); [done|].
  cbn [log]. unfold committed. rewrite !existsb_app. cbn [existsb is_commit].
  by rewrite orb_true_r, !orb_true_r.
Qed.

(** When directive generation, image rendering or caption generation yields
    no result, the run ends without a commit and the history file is as it
    was. *)
Lemma generation_failure_keeps_store (E : env) (st : file_state) :
  generation_failed (trace E st) = true →
  committed (trace E st) = false ∧ store_after E st = st.
Proof.
  intros Hfail.
  cut (committed (trace E st) = false).
  { intros Hc. split; [done|]. by apply store_unchanged_without_commit. }
  revert Hfail. rewrite run_trace. unfold run_world.
  destruct (clean_old_entries_with _ _ _) as [h|e]; [|done].
  destruct (selection _ h) as [[[t u] d]|e]; [|done]. cbv zeta.
  destruct (py_not u || py_not d); [done|].
  destruct (py_not (chat_text _)) eqn:H1; [done|].
  destruct (py_not (image_location _)) eqn:H2; [done|].
  destruct (py_not (chat_text (chat_completions_create E (tweet_text_request _ _))))
    eqn:H3; [done|].
  cbn [log]. unfold generation_failed.
  rewrite !existsb_app. cbn [existsb is_generation_failure app].
  rewrite H1, H2, H3.
  destruct (publish_events_no_generation E
              (the (chat_text (chat_completions_create E
                                 (tweet_text_request (the d) (the u)))))
              (the (image_location (images_generate E
                 (mk_image_request IMAGE_MODEL
                    (the (chat_text (chat_completions_create E
                                       (dalle_prompt_request (the d))))) 1)))))
    as [Hg _].
  unfold generation_failed in Hg. rewrite Hg. done.
Qed.

(** Whenever the publish stage obtained a post identifier, the commit
    follows. *)
Lemma publish_then_commit (E : env) (st : file_state) :
  published (trace E st) = true → committed (trace E st) = true.
Proof.
  rewrite run_trace. unfold run_world.
  destruct (clean_old_entries_with _ _ _) as [h|e]; [|done].
  destruct (selection _ h) as [[[t u] d]|e]; [|done]. cbv zeta.
  destruct (py_not u || py_not d); [done|].
  destruct (py_not (chat_text _)); [done|].
  destruct (py_not (image_location _)); [done|].
  destruct (py_not (chat_text _)); [done|].
  intros _. cbn [log]. unfold committed.
  rewrite !existsb_app. cbn [existsb is_commit].
  by rewrite orb_true_r, !orb_true_r.
Qed.

(** What the code does: the commit is made exactly when the publish stage
    was entered, whether or not it obtained a post. *)
Lemma commit_iff_publish_attempted (E : env) (st : file_state) :
  committed (trace E st) = publish_attempted (trace E st).
Proof.
  rewrite run_trace. unfold run_world.
  destruct (clean_old_entries_with _ _ _) as [h|e]; [|done].
  destruct (selection _ h) as [[[t u] d]|e]; [|done]. cbv zeta.
  destruct (py_not u || py_not d); [done|].
  destruct (py_not (chat_text _)); [done|].
  destruct (py_not (image_location _)); [done|].
  destruct (py_not (chat_text _)); [done|].
  cbn [log]. unfold committed, publish_attempted, publish_events.
  rewrite !existsb_app. cbn [existsb is_commit is_image_get app].
  by rewrite !orb_true_r.
Qed.

(** C1 fails on the code: when fetching the rendered image fails,
    [post_tweet] returns without a post, and [main] still marks the article
    and saves the history.  The run below commits although no post
    identifier was obtained. *)
Theorem commit_without_post :
  publish_failed (trace image_fetch_fails_env NoFile) = true
  ∧ published (trace image_fetch_fails_env NoFile) = false
  ∧ committed (trace image_fetch_fails_env NoFile) = true
  ∧ store_after image_fetch_fails_env NoFile
    = Document ({[ "https://old.com" := "2024-03-15T12:00:00" ]} : history)
  ∧ ¬ (committed (trace image_fetch_fails_env NoFile) = true ↔
       published (trace image_fetch_fails_env NoFile) = true).
Proof.
  assert (Hrun : publish_failed (trace image_fetch_fails_env NoFile) = true
    ∧ published (trace image_fetch_fails_env NoFile) = false
    ∧ committed (trace image_fetch_fails_env NoFile) = true
    ∧ store_after image_fetch_fails_env NoFile
      = Document ({[ "https://old.com" := "2024-03-15T12:00:00" ]} : history))
    by (vm_compute; done).
  destruct Hrun as (Hf & Hp & Hc & Hs). split_and!; try done.
  rewrite Hp, Hc. intros [Himp _]. by specialize (Himp eq_refl).
Qed.

(** C2 fails on the code for the publish stage: when creating the post
    fails, the history file after the run differs from the file before
    it. *)
Theorem publish_failure_changes_store :
  publish_failed (trace create_tweet_fails_env (Document sample_history)) = true
  ∧ published (trace create_tweet_fails_env (Document sample_history)) = false
  ∧ store_after create_tweet_fails_env (Document sample_history)
    = Document
        ({[ "https://old.com" := "2024-03-15T12:00:00";
            "https://recent.com" := "2024-03-14T09:30:00.250000" ]} : history)
  ∧ store_after create_tweet_fails_env (Document sample_history)
    ≠ Document sample_history.
Proof. vm_compute. split_and!; done. Qed.

(** C10. When the first article of the list with a non-empty url that is
    not in the history has neither a description nor a title, the selector
    returns that article, with a summary that is [None] or empty, whatever
    follows it in the list; [main] then ends the run after the provider
    call, with no commit and the history file as it was. *)
Theorem untitled_article_ends_run (E : env) (st : file_state) (h : history)
    (resp : news_json) (pre : list article) (a : article)
    (post : list article) :
  clean_old_entries_with HISTORY_RETENTION_DAYS (clock E 0) (loaded st) = Ok h →
  news_get E (news_request (NEWS_API_KEY E)) = Ok resp →
  articles resp = Some (pre ++ a :: post) →
  Forall (fun b => usable h b = false) pre → usable h a = true →
  py_not (description a) = true → py_not (title a) = true →
  (fetch_daily_news E (NEWS_API_KEY E) h (mk_world st 1 [])).1
  = Ok (title a, url a, py_or (description a) (title a))
  ∧ py_not (py_or (description a) (title a)) = true
  ∧ (description a = None → title a = None →
     py_or (description a) (title a) = None)
  ∧ run E st
    = (Ok tt, mk_world st 1 [NewsGet (news_request (NEWS_API_KEY E)) (Ok resp)])
  ∧ committed (trace E st) = false
  ∧ store_after E st = st.
Proof.
  intros Hclean Hget Harts Hpre Ha Hd Ht.
  assert (Hsel : selection (news_get E (news_request (NEWS_API_KEY E))) h
                 = Ok (title a, url a, py_or (description a) (title a))).
  { rewrite Hget. unfold selection. rewrite Harts. cbn [default].
    f_equal. by apply first_unposted_skips. }
  assert (Hsum : py_not (py_or (description a) (title a)) = true).
  { unfold py_or, py_not in *. by destruct (truthy (description a)). }
  assert (Hrun : run_world E st
    = mk_world st 1 [NewsGet (news_request (NEWS_API_KEY E)) (Ok resp)]).
  { unfold run_world. rewrite Hclean, Hsel. cbv zeta.
    rewrite Hsum, orb_true_r. by rewrite Hget. }
  split_and!.
  - by rewrite fetch_daily_news_run.
  - done.
  - by intros -> ->.
  - by rewrite main_run, Hrun.
  - by rewrite run_trace, Hrun.
  - by rewrite run_store, Hrun.
Qed.

Lemma untitled_article_ends_run_witness :
  (fetch_daily_news untitled_first_env "key"
     {[ "https://recent.com" := "2024-03-14T09:30:00.250000" ]}
     (mk_world (Document sample_history) 1 [])).1
  = Ok (None, Some "https://bare.com", None)
  ∧ store_after untitled_first_env (Document sample_history)
    = Document sample_history.
Proof.
  destruct (untitled_article_ends_run untitled_first_env
              (Document sample_history)
              {[ "https://recent.com" := "2024-03-14T09:30:00.250000" ]}
              (mk_news_json (Some
                 [ mk_article None (Some "https://bare.com") None;
                   mk_article (Some "New News") (Some "https://new.com")
                     (Some "New") ]))
              []
              (mk_article None (Some "https://bare.com") None)
              [ mk_article (Some "New News") (Some "https://new.com")
                  (Some "New") ])
    as (H1 & _ & _ & _ & _ & H2).
  - vm_compute. reflexivity.
  - reflexivity.
  - reflexivity.
  - constructor.
  - vm_compute. reflexivity.
  - reflexivity.
  - reflexivity.
  - split; [exact H1|exact H2].
Defined.

(** ** Chronological order and the time line *)

Lemma days_before_year_mono (a b : Z) :
  a <= b → Datetime.days_before_year a <= Datetime.days_before_year b.
Proof.
  intros Hab. unfold Datetime.days_before_year. cbv zeta.
  div_mod_facts (a - 1) 4. div_mod_facts (a - 1) 100. div_mod_facts (a - 1) 400.
  div_mod_facts (b - 1) 4. div_mod_facts (b - 1) 100. div_mod_facts (b - 1) 400.
  lia.
Qed.

Lemma days_before_month_mono (y m1 m2 : Z) :
  1 <= m1 → m1 < m2 → m2 <= 12 →
  Datetime.days_before_month y m1 + Datetime.days_in_month y m1
  <= Datetime.days_before_month y m2.
Proof.
  intros H1 H12 H2.
  unfold Datetime.days_before_month, Datetime.days_in_month, Datetime.at_index.
  assert (C1 : m1 = 1 ∨ m1 = 2 ∨ m1 = 3 ∨ m1 = 4 ∨ m1 = 5 ∨ m1 = 6 ∨ m1 = 7
               ∨ m1 = 8 ∨ m1 = 9 ∨ m1 = 10 ∨ m1 = 11) by lia.
  assert (C2 : m2 = 2 ∨ m2 = 3 ∨ m2 = 4 ∨ m2 = 5 ∨ m2 = 6 ∨ m2 = 7
               ∨ m2 = 8 ∨ m2 = 9 ∨ m2 = 10 ∨ m2 = 11 ∨ m2 = 12) by lia.
  destruct (Datetime.is_leap y);
    repeat (destruct C1 as [->|C1]); try subst m1;
    repeat (destruct C2 as [->|C2]); try subst m2;
    simpl; lia.
Qed.

(** The ordinal of a date orders dates as year, month, day do. *)
Lemma ymd2ord_compare (y1 m1 d1 y2 m2 d2 : Z) :
  1 <= m1 <= 12 → 1 <= d1 <= Datetime.days_in_month y1 m1 →
  1 <= m2 <= 12 → 1 <= d2 <= Datetime.days_in_month y2 m2 →
  (Datetime.ymd2ord y1 m1 d1 ?= Datetime.ymd2ord y2 m2 d2)
  = Datetime.lex_compare [y1; m1; d1] [y2; m2; d2].
Proof.
  intros Hm1 Hd1 Hm2 Hd2. cbn [Datetime.lex_compare].
  pose proof (days_through_month y1 m1 Hm1) as [Hs1 Hb1].
  pose proof (days_through_month y2 m2 Hm2) as [Hs2 Hb2].
  pose proof (days_before_year_next y1) as Hn1.
  pose proof (days_before_year_next y2) as Hn2.
  unfold Datetime.ymd2ord.
  destruct (Z.compare_spec y1 y2) as [->|Hy|Hy].
  - destruct (Z.compare_spec m1 m2) as [->|Hm|Hm].
    + destruct (Z.compare_spec d1 d2) as [->|Hd|Hd].
      * apply Z.compare_refl.
      * apply Z.compare_lt_iff. lia.
      * apply Z.compare_gt_iff. lia.
    + pose proof (days_before_month_mono y2 m1 m2). 
      destruct (Z.compare_spec d1 d2); apply Z.compare_lt_iff; lia.
    + pose proof (days_before_month_mono y2 m2 m1).
      destruct (Z.compare_spec d1 d2); apply Z.compare_gt_iff; lia.
  - pose proof (days_before_year_mono (y1 + 1) y2 ltac:(lia)).
    destruct (Z.compare_spec m1 m2), (Z.compare_spec d1 d2);
      apply Z.compare_lt_iff; lia.
  - pose proof (days_before_year_mono (y2 + 1) y1 ltac:(lia)).
    destruct (Z.compare_spec m1 m2), (Z.compare_spec d1 d2);
      apply Z.compare_gt_iff; lia.
Qed.

Lemma lex_compare_app (a1 a2 b1 b2 : list Z) :
  length a1 = length a2 →
  Datetime.lex_compare (a1 ++ b1) (a2 ++ b2)
  = match Datetime.lex_compare a1 a2 with
    | Eq => Datetime.lex_compare b1 b2
    | c => c
    end.
Proof.
  revert a2. induction a1 as [|x a1 IH]; intros [|y a2]; simpl; try done.
  intros [= Hlen]. destruct (x ?= y); auto.
Qed.

(** The chronological order of well-formed datetimes is the order of their
    positions on the time line. *)
Lemma compare_timeline (d1 d2 : Datetime.datetime) :
  Datetime.wf d1 = true → Datetime.wf d2 = true →
  Datetime.compare d1 d2 = (timeline d1 ?= timeline d2).
Proof.
  intros W1 W2.
  apply wf_bounds in W1 as (Y1 & M1 & D1 & h1 & m1 & s1 & u1).
  apply wf_bounds in W2 as (Y2 & M2 & D2 & h2 & m2 & s2 & u2).
  pose proof (ymd2ord_compare _ _ _ _ _ _ M1 D1 M2 D2) as Hord.
  unfold Datetime.compare, Datetime.fields, timeline, Datetime.toordinal.
  etrans;
    [exact (lex_compare_app
              [Datetime.year d1; Datetime.month d1; Datetime.day d1]
              [Datetime.year d2; Datetime.month d2; Datetime.day d2]
              [Datetime.hour d1; Datetime.minute d1; Datetime.second d1;
               Datetime.microsecond d1]
              [Datetime.hour d2; Datetime.minute d2; Datetime.second d2;
               Datetime.microsecond d2] eq_refl)|].
  rewrite <- Hord. clear Hord.
  generalize (Datetime.ymd2ord (Datetime.year d1) (Datetime.month d1)
                (Datetime.day d1)).
  generalize (Datetime.ymd2ord (Datetime.year d2) (Datetime.month d2)
                (Datetime.day d2)).
  intros o2 o1. cbn [Datetime.lex_compare]. symmetry.
  destruct (Z.compare_spec o1 o2),
    (Z.compare_spec (Datetime.hour d1) (Datetime.hour d2)),
    (Z.compare_spec (Datetime.minute d1) (Datetime.minute d2)),
    (Z.compare_spec (Datetime.second d1) (Datetime.second d2)),
    (Z.compare_spec (Datetime.microsecond d1) (Datetime.microsecond d2));
    first [ apply Z.compare_eq_iff; lia
          | apply Z.compare_lt_iff; lia
          | apply Z.compare_gt_iff; lia ].
Qed.

Lemma sub_days_timeline (now d : Datetime.datetime) (days : Z) :
  Datetime.sub_days now days = Ok d →
  timeline d = timeline now - days * DAY_US.
Proof.
  intros (Ho & Hh & Hm & Hs & Hu)%sub_days_toordinal.
  unfold timeline, DAY_US. rewrite Ho, Hh, Hm, Hs, Hu. lia.
Qed.

(** ** More on the history store *)

(** [save_posted_articles] never raises, whatever happens to the write, and
    records one write.  A load that follows returns the saved history when
    the write succeeded, the history that was there before when [open]
    failed, and the empty history when the dump failed after [open] had
    truncated the file. *)
Theorem save_then_load (E : env) (h : history) (w : world) :
  ∃ w1,
    save_posted_articles E h w = (Ok tt, w1)
    ∧ ticks w1 = ticks w
    ∧ log w1 = log w ++ [FileWrite h (file_write E h)]
    ∧ load_posted_articles w1
      = (Ok (match file_write E h with
             | Written => dict_of h
             | OpenFails => loaded (store w)
             | DumpFails => dict_of ∅
             end), w1).
Proof.
  unfold save_posted_articles, file_dump_json, try_except.
  destruct (file_write E h) eqn:Hw; eexists; split_and!; try reflexivity;
    by rewrite load_posted_articles_run.
Qed.

(** [mark_article_posted] reads the clock once and stores its ISO timestamp
    under the url: the url is then posted, an earlier timestamp of the same
    url is replaced (the history keeps one entry per url), and every other
    entry is as before. *)
Theorem mark_article_posted_entry (E : env) (u : string) (h : history)
    (w : world) :
  ∃ h1,
    mark_article_posted E u h w
    = (Ok h1, mk_world (store w) (S (ticks w)) (log w))
    ∧ h1 !! u = Some (Datetime.isoformat (clock E (ticks w)))
    ∧ is_article_posted u h1 = true
    ∧ (∀ v, v ≠ u → h1 !! v = h !! v)
    ∧ (∀ v, v ≠ u → is_article_posted v h1 = is_article_posted v h)
    ∧ size h1 = (if is_article_posted u h then size h else S (size h)).
Proof.
  exists (<[u := Datetime.isoformat (clock E (ticks w))]> h).
  split_and!.
  - reflexivity.
  - apply lookup_insert_eq.
  - unfold is_article_posted. apply bool_decide_eq_true.
    rewrite lookup_insert_eq. by eexists.
  - intros v Hv. by apply lookup_insert_ne.
  - intros v Hv. unfold is_article_posted. by rewrite lookup_insert_ne.
  - unfold is_article_posted. destruct (h !! u) as [ts|] eqn:Hu.
    + rewrite bool_decide_eq_true_2 by (by eexists).
      rewrite <- (insert_id h u ts Hu) at 2.
      rewrite <- (insert_delete_eq h), <- (insert_delete_eq h u ts).
      rewrite !map_size_insert_None by apply lookup_delete_eq. done.
    + rewrite bool_decide_eq_false_2 by (by intros [? ?]).
      by apply map_size_insert_None.
Qed.

(** An entry stamped by [isoformat] at [t], after a pruning at [now]. *)
Lemma stamped_entry_lookup (t now : Datetime.datetime) (u : string)
    (h1 h2 : history) :
  Datetime.wf t = true → Datetime.wf now = true →
  h1 !! u = Some (Datetime.isoformat t) →
  clean_old_entries_with HISTORY_RETENTION_DAYS now h1 = Ok h2 →
  ∀ ts, h2 !! u = Some ts ↔
        ts = Datetime.isoformat t
        ∧ timeline now - timeline t < HISTORY_RETENTION_DAYS * DAY_US.
Proof.
  intros Wt Wnow Hu (d & Hd & ->)%clean_old_entries_with_Ok ts.
  pose proof (sub_days_wf _ _ _ Wnow Hd) as Wd.
  pose proof (sub_days_timeline _ _ _ Hd) as Htl.
  rewrite map_lookup_filter_Some, Hu. cbn [snd].
  rewrite Is_true_true.
  assert (Hgt : str_gt (Datetime.isoformat t) (Datetime.isoformat d) = true ↔
                timeline now - timeline t < HISTORY_RETENTION_DAYS * DAY_US).
  { rewrite str_gt_isoformat by done. unfold Datetime.ltb.
    rewrite compare_timeline by done.
    destruct (Z.compare_spec (timeline d) (timeline t));
      split; try done; lia. }
  split.
  - intros [[= <-] Hs]. split; [done|]. by apply Hgt.
  - intros [-> Hage]. split; [done|]. by apply Hgt.
Qed.

(** The entry [mark_article_posted] wrote at [t], after a pruning at
    [now]. *)
Lemma marked_entry_lookup (E E' : env) (w w' : world) (u : string)
    (h h1 h2 : history) :
  Datetime.wf (clock E (ticks w)) = true →
  Datetime.wf (clock E' (ticks w')) = true →
  (mark_article_posted E u h w).1 = Ok h1 →
  (clean_old_entries E' h1 w').1 = Ok h2 →
  ∀ ts, h2 !! u = Some ts ↔
        ts = Datetime.isoformat (clock E (ticks w))
        ∧ timeline (clock E' (ticks w')) - timeline (clock E (ticks w))
          < HISTORY_RETENTION_DAYS * DAY_US.
Proof.
  intros Wt Wnow [= <-]. rewrite clean_old_entries_run. cbn [fst].
  intros Hclean. eapply stamped_entry_lookup; try done.
  apply lookup_insert_eq.
Qed.

(** An entry written by [mark_article_posted] at clock reading [t] survives
    [clean_old_entries] at clock reading [now] exactly when less than
    [HISTORY_RETENTION_DAYS] days (to the microsecond) have passed between
    the two readings; at exactly seven days it is dropped. *)
Theorem marked_entry_retention (E E' : env) (w w' : world) (u : string)
    (h h1 h2 : history) :
  Datetime.wf (clock E (ticks w)) = true →
  Datetime.wf (clock E' (ticks w')) = true →
  (mark_article_posted E u h w).1 = Ok h1 →
  (clean_old_entries E' h1 w').1 = Ok h2 →
  (is_article_posted u h2 = true ↔
   timeline (clock E' (ticks w')) - timeline (clock E (ticks w))
   < HISTORY_RETENTION_DAYS * DAY_US)
  ∧ (is_article_posted u h2 = true →
     h2 !! u = Some (Datetime.isoformat (clock E (ticks w)))).
Proof.
  intros Wt Wnow Hmark Hclean.
  pose proof (marked_entry_lookup E E' w w' u h h1 h2 Wt Wnow Hmark Hclean)
    as Hlook.
  unfold is_article_posted. rewrite bool_decide_eq_true. split; [split|].
  - by intros [ts [_ Hage]%Hlook].
  - intros Hage. eexists. by apply Hlook.
  - intros [ts Hts]. by pose proof Hts as [-> _]%Hlook.
Qed.

Lemma marked_entry_retention_witness :
  (is_article_posted "https://new.com"
     {[ "https://new.com" := "2024-03-15T12:00:00";
        "https://recent.com" := "2024-03-14T09:30:00.250000" ]} = true ↔
   timeline sample_later - timeline sample_now < HISTORY_RETENTION_DAYS * DAY_US).
Proof.
  eapply proj1.
  apply (marked_entry_retention sample_env (env_with sample_later Written)
           (mk_world NoFile 0 []) (mk_world NoFile 0 [])
           "https://new.com" sample_history
           (<["https://new.com" := "2024-03-15T12:00:00"]> sample_history)).
  - reflexivity.
  - reflexivity.
  - reflexivity.
  - vm_compute. reflexivity.
Defined.

(** Within the retention window a marked article is not selected again:
    once [mark_article_posted] has stored a url, and [clean_old_entries]
    runs less than seven days later, the selector never returns that url,
    whatever list the provider answers with. *)
Theorem marked_article_not_selected (E E' : env) (w w' : world) (u : string)
    (h h1 h2 : history) (arts : list article) :
  Datetime.wf (clock E (ticks w)) = true →
  Datetime.wf (clock E' (ticks w')) = true →
  (mark_article_posted E u h w).1 = Ok h1 →
  (clean_old_entries E' h1 w').1 = Ok h2 →
  timeline (clock E' (ticks w')) - timeline (clock E (ticks w))
  < HISTORY_RETENTION_DAYS * DAY_US →
  (first_unposted arts h2).1.2 ≠ Some u.
Proof.
  intros Wt Wnow Hmark Hclean Hage.
  pose proof (marked_entry_lookup E E' w w' u h h1 h2 Wt Wnow Hmark Hclean)
    as Hlook.
  assert (Hts : h2 !! u = Some (Datetime.isoformat (clock E (ticks w))))
    by (by apply Hlook).
  destruct (first_unposted arts h2) as [[t' u'] d'] eqn:Hsel. cbn [fst snd].
  intros ->. apply first_unposted_url in Hsel as (_ & Hnone & _). congruence.
Qed.

Lemma marked_article_not_selected_witness :
  (first_unposted sample_articles
     {[ "https://new.com" := "2024-03-15T12:00:00";
        "https://recent.com" := "2024-03-14T09:30:00.250000" ]}).1.2
  ≠ Some "https://new.com".
Proof.
  apply (marked_article_not_selected sample_env (env_with sample_later Written)
           (mk_world NoFile 0 []) (mk_world NoFile 0 [])
           "https://new.com" sample_history
           (<["https://new.com" := "2024-03-15T12:00:00"]> sample_history)).
  - reflexivity.
  - reflexivity.
  - reflexivity.
  - vm_compute. reflexivity.
  - vm_compute. reflexivity.
Defined.

(** Timestamps that are not ISO timestamps: an entry whose timestamp is the
    empty string is dropped by every pruning, and an entry whose timestamp
    starts with a character above the digits (a letter, say) is kept by
    every pruning, whatever the clock reads. *)
Theorem odd_timestamps (now : Datetime.datetime) (h h2 : history)
    (u : string) :
  Datetime.wf now = true →
  clean_old_entries_with HISTORY_RETENTION_DAYS now h = Ok h2 →
  (h !! u = Some "" → h2 !! u = None)
  ∧ (∀ c rest, h !! u = Some (String c rest) →
       (57 < Ascii.N_of_ascii c)%N → h2 !! u = Some (String c rest)).
Proof.
  intros Wnow (d & Hd & ->)%clean_old_entries_with_Ok.
  pose proof (sub_days_wf _ _ _ Wnow Hd) as Wd.
  apply wf_bounds in Wd as (Hy & _).
  assert (Hiso : ∃ rest', Datetime.isoformat d
    = String (Datetime.digit (Datetime.year d / 10 ^ 3)) rest').
  { unfold Datetime.isoformat. rewrite fmt_0d_digits by (simpl; lia).
    eexists. reflexivity. }
  destruct Hiso as [rest' Hiso].
  assert (Hdig : (Ascii.N_of_ascii (Datetime.digit (Datetime.year d / 10 ^ 3))
                  <= 57)%N).
  { unfold Datetime.digit.
    assert (0 <= Datetime.year d / 10 ^ 3 <= 9).
    { split; [apply Z.div_pos; lia|].
      apply Z.lt_succ_r, Z.div_lt_upper_bound; lia. }
    rewrite Ascii.N_ascii_embedding by lia. lia. }
  split.
  - intros Hu. apply map_lookup_filter_None. right. intros ts Hts.
    assert (ts = "") as -> by congruence. cbn [snd].
    unfold str_gt, String.ltb. rewrite Hiso. simpl. by intros [].
  - intros c rest Hu Hc. apply map_lookup_filter_Some. split; [done|].
    cbn [snd]. unfold str_gt, String.ltb. rewrite Hiso.
    cbn [String.compare]. unfold Ascii.compare.
    replace (_ ?= _)%N with Lt; [done|].
    symmetry. apply N.compare_lt_iff. lia.
Qed.

Lemma odd_timestamps_witness :
  ({[ "https://x.com" := "yesterday" ]} : history) !! "https://x.com"
  = Some "yesterday".
Proof.
  eapply (proj2 (odd_timestamps sample_now
                   {[ "https://x.com" := "yesterday"; "https://y.com" := "" ]}
                   {[ "https://x.com" := "yesterday" ]} "https://x.com"
                   eq_refl _)).
  - vm_compute. reflexivity.
  - vm_compute. reflexivity.
  Unshelve. vm_compute. reflexivity.
Defined.

(** ** More on the selector and the generators *)

(** The selection looks at the keys of the history only: two histories with
    the same urls, whatever their timestamps, give the same selection. *)
Theorem first_unposted_keys_only (arts : list article) (h1 h2 : history) :
  (∀ u, is_Some (h1 !! u) ↔ is_Some (h2 !! u)) →
  first_unposted arts h1 = first_unposted arts h2.
Proof.
  intros Hkeys.
  assert (Hposted : ∀ u, is_article_posted u h1 = is_article_posted u h2).
  { intros u. unfold is_article_posted. apply bool_decide_ext, Hkeys. }
  induction arts as [|a arts IH]; [done|].
  cbn [first_unposted]. by rewrite Hposted, IH.
Qed.

Lemma first_unposted_keys_only_witness :
  first_unposted sample_articles
    {[ "https://old.com" := "2024-03-01T08:00:00" ]}
  = first_unposted sample_articles
      {[ "https://old.com" := "not a timestamp" ]}.
Proof.
  apply first_unposted_keys_only.
  intros u. rewrite !lookup_singleton_is_Some. reflexivity.
Defined.

(** [fetch_daily_news] makes exactly one call to the provider, for the
    country [us] and the category [technology] with the given key, and
    touches neither the history file nor the clock.  An exception of the
    provider call that is not a [RequestException] is not caught: it leaves
    the function. *)
Theorem fetch_daily_news_one_call (E : env) (api_key : string) (h : history)
    (w : world) :
  let q := mk_news_params "us" "technology" api_key in
  (fetch_daily_news E api_key h w).2
  = mk_world (store w) (ticks w) (log w ++ [NewsGet q (news_get E q)])
  ∧ ∀ e, news_get E q = Raise e →
         (fetch_daily_news E api_key h w).1
         = if is_RequestException e then Ok (None, None, None) else Raise e.
Proof.
  cbv zeta. rewrite fetch_daily_news_run. split; [done|].
  intros e He. cbn [fst]. unfold selection, news_request.
  change NEWS_COUNTRY with "us". change NEWS_CATEGORY with "technology".
  by rewrite He.
Qed.

Lemma fetch_daily_news_one_call_witness :
  (fetch_daily_news provider_breaks_env "key" sample_history
     (mk_world NoFile 0 [])).1
  = Raise JSONDecodeError.
Proof.
  exact (proj2 (fetch_daily_news_one_call provider_breaks_env "key"
                  sample_history (mk_world NoFile 0 []))
           JSONDecodeError eq_refl).
Defined.

(** [generate_dalle_prompt] never raises.  It makes exactly one chat call,
    to [CHAT_MODEL] with a system and a user message, the user message
    opening with the news description in quotes, and returns the content
    of the first choice as it is, of whatever length; it returns [None]
    when the call raises or answers without a choice.  The history file
    and the clock are not touched. *)
Theorem generate_dalle_prompt_contract (E : env) (news_description : string)
    (w : world) :
  ∃ q rest,
    chat_model q = CHAT_MODEL
    ∧ map role (messages q) = ["system"; "user"]
    ∧ map content (drop 1 (messages q))
      = ["News: '" +:+ news_description +:+ "'" +:+ rest]
    ∧ generate_dalle_prompt E news_description w
      = (Ok (match chat_completions_create E q with
             | Ok resp => match choices resp with c :: _ => c | [] => None end
             | Raise _ => None
             end),
         mk_world (store w) (ticks w)
           (log w ++ [ChatCreate q (chat_completions_create E q)])).
Proof.
  eexists (dalle_prompt_request news_description), _. split_and!.
  - reflexivity.
  - reflexivity.
  - reflexivity.
  - apply generate_dalle_prompt_run.
Qed.

(** [generate_tweet_text] never raises.  It makes exactly one chat call,
    to [CHAT_MODEL], whose user message carries the news description and
    then the url, and returns the content of the first choice as it is: the
    text is not checked against [MAX_TWEET_LENGTH].  It returns [None] when
    the call raises or answers without a choice. *)
Theorem generate_tweet_text_contract (E : env) (news_description news_url : string)
    (w : world) :
  ∃ q rest,
    chat_model q = CHAT_MODEL
    ∧ map role (messages q) = ["system"; "user"]
    ∧ map content (drop 1 (messages q))
      = ["News: '" +:+ news_description +:+ "'" +:+ nl +:+ "URL: "
         +:+ news_url +:+ rest]
    ∧ generate_tweet_text E news_description news_url w
      = (Ok (match chat_completions_create E q with
             | Ok resp => match choices resp with c :: _ => c | [] => None end
             | Raise _ => None
             end),
         mk_world (store w) (ticks w)
           (log w ++ [ChatCreate q (chat_completions_create E q)])).
Proof.
  eexists (tweet_text_request news_description news_url), _. split_and!.
  - reflexivity.
  - reflexivity.
  - reflexivity.
  - apply generate_tweet_text_run.
Qed.

(** ** More on the publisher and the orchestrator *)

Lemma py_not_false_Some (o : option string) :
  py_not o = false → ∃ s, o = Some s ∧ s ≠ "" ∧ the o = s.
Proof.
  intros H. apply py_not_false_the in H as [Hne Ho].
  exists (the o). split_and!; [done| |done]. by apply String.eqb_neq.
Qed.

Lemma run_pipeline (E : env) (st : file_state) : pipeline E st (run_world E st).
Proof.
  unfold run_world.
  destruct (clean_old_entries_with _ _ _) as [h|e] eqn:Hclean;
    [|by eapply stop_prune].
  destruct (selection _ h) as [[[t u] d]|e] eqn:Hsel;
    [|eapply stop_select; [done|by rewrite Hsel]].
  cbv zeta.
  destruct (py_not u || py_not d) eqn:Hud.
  { eapply stop_select; [done|]. rewrite Hsel. by apply orb_true_iff. }
  apply orb_false_iff in Hud as [Hu Hd].
  apply py_not_false_Some in Hu as (u' & -> & Hu' & ->).
  apply py_not_false_Some in Hd as (d' & -> & Hd' & ->).
  destruct (py_not (chat_text _)) eqn:H1; [by eapply stop_directive|].
  apply py_not_false_Some in H1 as (p & H1 & Hp & ->).
  destruct (py_not (image_location _)) eqn:H2; [by eapply stop_image|].
  apply py_not_false_Some in H2 as (loc & H2 & Hloc & ->).
  destruct (py_not (chat_text (chat_completions_create E (tweet_text_request _ _))))
    eqn:H3; [by eapply stop_caption|].
  apply py_not_false_Some in H3 as (c & H3 & Hc & ->).
  by eapply through_publish.
Qed.


(** [upload_image_to_twitter] never raises.  When fetching the image fails
    it returns [None] without calling the platform; otherwise it uploads
    what it fetched and returns the media identifier, or [None] when the
    upload raises. *)
Theorem upload_image_to_twitter_contract (E : env) (image_url : string)
    (w : world) :
  upload_image_to_twitter E image_url w
  = match image_get E image_url with
    | Raise e =>
        (Ok None,
         mk_world (store w) (ticks w)
           (log w ++ [ImageGet image_url (Raise e)]))
    | Ok image_data =>
        (Ok (match media_upload E image_data with
             | Ok media_id => Some media_id
             | Raise _ => None
             end),
         mk_world (store w) (ticks w)
           (log w ++ [ImageGet image_url (Ok image_data);
                      MediaUpload image_data (media_upload E image_data)]))
    end.
Proof.
  unfold upload_image_to_twitter, try_except, call. rewrite bind_run.
  destruct (image_get E image_url) as [image_data|e]; [|done].
  rewrite bind_run. cbn [store ticks log]. rewrite <- app_assoc.
  by destruct (media_upload E image_data).
Qed.

(** [post_tweet] never raises and touches neither the history file nor the
    clock.  It creates a post only when the image was fetched and uploaded
    and the media identifier is not empty; the post then carries exactly
    the given text, unchecked, and that one media identifier.  The title
    and the url of the article are not used. *)
Theorem post_tweet_contract (E : env) (tweet_text image_url : string)
    (news_title : option string) (news_url : string) (w : world) :
  ∃ evs,
    post_tweet E tweet_text image_url news_title news_url w
    = (Ok tt, mk_world (store w) (ticks w) (log w ++ evs))
    ∧ committed evs = false
    ∧ (∀ q r, CreateTweet q r ∈ evs ↔
         ∃ image_data media_id,
           image_get E image_url = Ok image_data
           ∧ media_upload E image_data = Ok media_id
           ∧ media_id ≠ ""
           ∧ q = mk_tweet_request tweet_text [media_id]
           ∧ r = create_tweet E q)
    ∧ ∀ news_title' news_url',
        post_tweet E tweet_text image_url news_title' news_url' w
        = post_tweet E tweet_text image_url news_title news_url w.
Proof.
  exists (publish_events E tweet_text image_url). split_and!.
  - apply post_tweet_run.
  - apply publish_events_no_generation.
  - intros q r. unfold publish_events.
    destruct (image_get E image_url) as [image_data|e] eqn:Hget;
      [destruct (media_upload E image_data) as [media_id|e] eqn:Hup;
         [destruct (String.eqb media_id "") eqn:Hid|]|];
      rewrite ?elem_of_cons, ?elem_of_nil; split.
    + intros [?|[?|?]]; done.
    + intros (x & y & Hx & Hy & Hne & _).
      apply String.eqb_eq in Hid. congruence.
    + intros [?|[?|[?|?]]]; try done. simplify_eq.
      exists image_data, media_id. split_and!; try done.
      by apply String.eqb_neq.
    + intros (x & y & Hx & Hy & Hne & -> & ->).
      assert (y = media_id) as -> by congruence. auto.
    + intros [?|[?|?]]; done.
    + intros (x & y & Hx & Hy & _). congruence.
    + intros [?|?]; done.
    + intros (x & y & Hx & _). congruence.
  - intros news_title' news_url'. by rewrite !post_tweet_run.
Qed.


Lemma publish_events_elem (E : env) (c loc : string) (ev : event) :
  ev ∈ publish_events E c loc →
  match ev with
  | ImageGet loc' _ => loc' = loc
  | MediaUpload _ _ => True
  | CreateTweet q _ =>
      text q = c
      ∧ ∃ image_data media_id,
          MediaUpload image_data (Ok media_id) ∈ publish_events E c loc
          ∧ media_id ≠ "" ∧ media_ids q = [media_id]
  | _ => False
  end.
Proof.
  unfold publish_events.
  destruct (image_get E loc) as [image_data|e];
    [destruct (media_upload E image_data) as [media_id|e];
       [destruct (String.eqb media_id "") eqn:Hid|]|];
    rewrite ?elem_of_cons, ?elem_of_nil; intros Hin;
    repeat (destruct Hin as [->|Hin]); try done.
  split; [done|]. exists image_data, media_id. split_and!; try done.
  - rewrite !elem_of_cons. auto.
  - by apply String.eqb_neq.
Qed.


(** A commit records the selected article: the history written is the
    pruned history with one more entry, the url of an article the provider
    listed, not yet in the pruned history, stamped with the second clock
    reading.  The write is the last call of the run; when it succeeds the
    file holds that history (the entries pruned are gone from it), when
    [open] fails the file is as before, and the run ends normally in
    either case. *)
Theorem commit_records_selected_url (E : env) (st : file_state) :
  committed (trace E st) = true →
  ∃ h u resp a,
    clean_old_entries_with HISTORY_RETENTION_DAYS (clock E 0) (loaded st) = Ok h
    ∧ news_get E (news_request (NEWS_API_KEY E)) = Ok resp
    ∧ a ∈ default [] (articles resp) ∧ url a = Some u
    ∧ u ≠ "" ∧ h !! u = None
    ∧ (run E st).1 = Ok tt
    ∧ last (trace E st)
      = Some (FileWrite (<[u := Datetime.isoformat (clock E 1)]> h)
                (file_write E (<[u := Datetime.isoformat (clock E 1)]> h)))
    ∧ store_after E st
      = match file_write E (<[u := Datetime.isoformat (clock E 1)]> h) with
        | Written => Document (<[u := Datetime.isoformat (clock E 1)]> h)
        | OpenFails => st
        | DumpFails => Unreadable JSONDecodeError
        end
    ∧ size (<[u := Datetime.isoformat (clock E 1)]> h) = S (size h).
Proof.
  rewrite run_trace, run_store, main_run. cbn [fst].
  destruct (run_pipeline E st) as [| | | | |h t u d p loc c Hclean Hsel Hu];
    cbn [log store]; try done.
  intros _. unfold selection in Hsel.
  destruct (news_get E _) as [resp|e] eqn:Hget;
    [|by destruct (is_RequestException e)].
  injection Hsel as Hsel.
  apply first_unposted_url in Hsel as (_ & Hnone & a & Ha & Hurl).
  exists h, u, resp, a. split_and!; try done.
  - by rewrite !app_assoc, last_snoc.
  - by apply map_size_insert_None.
Qed.

Lemma commit_records_selected_url_witness :
  ∃ h u resp a,
    clean_old_entries_with HISTORY_RETENTION_DAYS (clock sample_env 0)
      (loaded (Document sample_history)) = Ok h
    ∧ news_get sample_env (news_request (NEWS_API_KEY sample_env)) = Ok resp
    ∧ a ∈ default [] (articles resp) ∧ url a = Some u
    ∧ u ≠ "" ∧ h !! u = None
    ∧ (run sample_env (Document sample_history)).1 = Ok tt
    ∧ last (trace sample_env (Document sample_history))
      = Some (FileWrite (<[u := Datetime.isoformat (clock sample_env 1)]> h)
                (file_write sample_env
                   (<[u := Datetime.isoformat (clock sample_env 1)]> h)))
    ∧ store_after sample_env (Document sample_history)
      = match file_write sample_env
                (<[u := Datetime.isoformat (clock sample_env 1)]> h) with
        | Written =>
            Document (<[u := Datetime.isoformat (clock sample_env 1)]> h)
        | OpenFails => Document sample_history
        | DumpFails => Unreadable JSONDecodeError
        end
    ∧ size (<[u := Datetime.isoformat (clock sample_env 1)]> h) = S (size h).
Proof.
  apply (commit_records_selected_url sample_env (Document sample_history)).
  vm_compute. reflexivity.
Defined.

(** A history file that cannot be read is treated as no history at all: the
    run makes the same calls as with no file, and ends with the same file
    unless it leaves the file untouched. *)
Theorem unreadable_file_as_absent (E : env) (e : exn) :
  trace E (Unreadable e) = trace E NoFile
  ∧ (store_after E (Unreadable e) = store_after E NoFile
     ∨ (store_after E (Unreadable e) = Unreadable e
        ∧ store_after E NoFile = NoFile)).
Proof.
  rewrite !run_trace, !run_store. unfold run_world. cbn [loaded].
  destruct (clean_old_entries_with _ _ _) as [h|e']; [|auto].
  destruct (selection _ h) as [[[t u] d]|e']; [|auto]. cbv zeta.
  destruct (py_not u || py_not d); [auto|].
  destruct (py_not (chat_text _)); [auto|].
  destruct (py_not (image_location _)); [auto|].
  destruct (py_not (chat_text _)); [auto|].
  cbn [log store]. split; [done|]. unfold written.
  destruct (file_write E _); auto.
Qed.

(** When the selector gives no candidate or raises, the run is over after
    the one call to the provider: nothing is generated, nothing is posted,
    the history file is as it was, and [main] returns normally. *)
Theorem no_candidate_ends_run (E : env) (st : file_state) (h : history) :
  clean_old_entries_with HISTORY_RETENTION_DAYS (clock E 0) (loaded st) = Ok h →
  ((fetch_daily_news E (NEWS_API_KEY E) h (mk_world st 1 [])).1
   = Ok (None, None, None)
   ∨ ∃ e, (fetch_daily_news E (NEWS_API_KEY E) h (mk_world st 1 [])).1
          = Raise e) →
  run E st
  = (Ok tt,
     mk_world st 1
       [NewsGet (news_request (NEWS_API_KEY E))
          (news_get E (news_request (NEWS_API_KEY E)))]).
Proof.
  intros Hclean Hsel. rewrite fetch_daily_news_run in Hsel. cbn [fst] in Hsel.
  rewrite main_run. f_equal. unfold run_world. rewrite Hclean.
  by destruct Hsel as [->|[e ->]].
Qed.

Lemma no_candidate_ends_run_witness :
  run provider_breaks_env NoFile
  = (Ok tt,
     mk_world NoFile 1
       [NewsGet (mk_news_params "us" "technology" "key")
          (Raise JSONDecodeError)]).
Proof.
  apply (no_candidate_ends_run provider_breaks_env NoFile ∅).
  - reflexivity.
  - right. exists JSONDecodeError. reflexivity.
Defined.

Lemma generation_failure_keeps_store_witness :
  committed (trace image_generation_fails_env (Document sample_history)) = false
  ∧ store_after image_generation_fails_env (Document sample_history)
    = Document sample_history.
Proof.
  apply generation_failure_keeps_store. vm_compute. reflexivity.
Defined.

(** ** The check of the configuration *)

Lemma missing_vars_filter (environ : gmap string string) :
  missing_vars environ
  = List.filter (fun name => py_not (environ !! name)) REQUIRED_NAMES.
Proof.
  unfold missing_vars.
  change (required_vars environ)
    with (map (fun name => (name, environ !! name)) REQUIRED_NAMES).
  generalize REQUIRED_NAMES.
  induction l as [|x l IH]; [done|]. simpl.
  destruct (py_not (environ !! x)); simpl; by rewrite IH.
Qed.

(** The import of [Main.py] succeeds exactly when each of the six required
    variables is set to a non-empty string; otherwise it raises, and
    [missing_vars] names exactly the required variables that are unset or
    empty, in the order the code lists them. *)
Theorem check_environment_spec (environ : gmap string string) :
  (check_environment environ = Ok tt ↔
   ∀ name, name ∈ REQUIRED_NAMES → ∃ v, environ !! name = Some v ∧ v ≠ "")
  ∧ (check_environment environ ≠ Ok tt →
     check_environment environ = Raise OSError)
  ∧ (∀ name, name ∈ missing_vars environ ↔
       name ∈ REQUIRED_NAMES
       ∧ (environ !! name = None ∨ environ !! name = Some ""))
  ∧ sublist (missing_vars environ) REQUIRED_NAMES.
Proof.
  assert (Hmiss : ∀ name, name ∈ missing_vars environ ↔
    name ∈ REQUIRED_NAMES
    ∧ (environ !! name = None ∨ environ !! name = Some "")).
  { intros name. rewrite missing_vars_filter, !list_elem_of_In, filter_In.
    apply and_iff_compat_l. unfold py_not. rewrite negb_true_iff.
    destruct (environ !! name) as [v|]; simpl.
    - rewrite negb_false_iff, String.eqb_eq. split.
      + intros ->. by right.
      + by intros [|[= ->]].
    - split; auto. }
  split_and!; [| |done|].
  - split.
    + intros Hok name Hname.
      assert (Hempty : missing_vars environ = []).
      { unfold check_environment in Hok.
        by destruct (missing_vars environ). }
      assert (Hgood : ¬ (environ !! name = None ∨ environ !! name = Some "")).
      { intros Hbad.
        assert (Hin : name ∈ missing_vars environ) by (by apply Hmiss).
        rewrite Hempty in Hin. by apply elem_of_nil in Hin. }
      destruct (environ !! name) as [v|]; [|by destruct Hgood; left].
      exists v. split; [done|]. intros ->. apply Hgood. by right.
    + intros Hall. unfold check_environment.
      destruct (missing_vars environ) as [|m ms]; [done|].
      assert (Hin : m ∈ m :: ms) by left.
      apply Hmiss in Hin as [Hreq Hbad].
      destruct (Hall m Hreq) as (v & Hv & Hne).
      destruct Hbad; congruence.
  - unfold check_environment. by destruct (missing_vars environ).
  - rewrite missing_vars_filter. generalize REQUIRED_NAMES.
    induction l as [|x l IH]; [constructor|]. simpl.
    destruct (py_not (environ !! x)); by constructor.
Qed.

Lemma check_environment_spec_witness :
  check_environment sample_environ = Raise OSError
  ∧ missing_vars sample_environ = ["TWITTER_CONSUMER_SECRET"; "NEWS_API_KEY"].
Proof.
  split.
  - apply (check_environment_spec sample_environ). vm_compute. discriminate.
  - vm_compute. reflexivity.
Defined.

(** When every stage yields a result and the write succeeds, a run makes
    the eight calls of the pipeline once each, obtains a post identifier,
    and leaves in the file the pruned history with the selected url stamped
    with the second clock reading. *)
Theorem full_success_run (E : env) (st : file_state) (h : history)
    (t : option string) (u d p loc c media_id post : string)
    (image_data : list Byte.byte) (resp : tweet_response) :
  clean_old_entries_with HISTORY_RETENTION_DAYS (clock E 0) (loaded st) = Ok h →
  (fetch_daily_news E (NEWS_API_KEY E) h (mk_world st 1 [])).1
  = Ok (t, Some u, Some d) →
  d ≠ "" →
  chat_text (chat_completions_create E (dalle_prompt_request d)) = Some p →
  p ≠ "" →
  image_location (images_generate E (mk_image_request IMAGE_MODEL p 1))
  = Some loc →
  loc ≠ "" →
  chat_text (chat_completions_create E (tweet_text_request d u)) = Some c →
  c ≠ "" →
  image_get E loc = Ok image_data →
  media_upload E image_data = Ok media_id →
  media_id ≠ "" →
  create_tweet E (mk_tweet_request c [media_id]) = Ok resp →
  tweet_id resp = Some post →
  file_write E (<[u := Datetime.isoformat (clock E 1)]> h) = Written →
  map kind_of (trace E st)
  = [News; Chat; Image; Chat; Fetch; Upload; Post; Save]
  ∧ CreateTweet (mk_tweet_request c [media_id]) (Ok resp) ∈ trace E st
  ∧ published (trace E st) = true
  ∧ publish_failed (trace E st) = false
  ∧ store_after E st
    = Document (<[u := Datetime.isoformat (clock E 1)]> h).
Proof.
  intros Hclean Hsel Hd H1 Hp H2 Hloc H3 Hc Hget Hup Hid Hpost Hpid Hw.
  rewrite fetch_daily_news_run in Hsel. cbn [fst] in Hsel.
  assert (Hu : u ≠ "").
  { unfold selection in Hsel.
    destruct (news_get E _) as [r|e]; [|by destruct (is_RequestException e)].
    injection Hsel as Hsel. by apply first_unposted_url in Hsel as [? _]. }
  assert (Hnot : ∀ s, s ≠ "" → py_not (Some s) = false).
  { intros s Hs. unfold py_not, truthy. apply String.eqb_neq in Hs.
    by rewrite Hs. }
  assert (Hrun : run_world E st
    = mk_world (Document (<[u := Datetime.isoformat (clock E 1)]> h)) 2
        [NewsGet (news_request (NEWS_API_KEY E))
           (news_get E (news_request (NEWS_API_KEY E)));
         ChatCreate (dalle_prompt_request d)
           (chat_completions_create E (dalle_prompt_request d));
         ImagesGenerate (mk_image_request IMAGE_MODEL p 1)
           (images_generate E (mk_image_request IMAGE_MODEL p 1));
         ChatCreate (tweet_text_request d u)
           (chat_completions_create E (tweet_text_request d u));
         ImageGet loc (Ok image_data);
         MediaUpload image_data (Ok media_id);
         CreateTweet (mk_tweet_request c [media_id]) (Ok resp);
         FileWrite (<[u := Datetime.isoformat (clock E 1)]> h) Written]).
  { assert (Hthe : ∀ s, the (Some s) = s) by done.
    unfold run_world. rewrite Hclean, Hsel. cbv zeta.
    rewrite !Hthe, !Hnot by done. cbn [orb].
    rewrite H1, Hthe, (Hnot p Hp), H2, Hthe, (Hnot loc Hloc).
    rewrite H3, Hthe, (Hnot c Hc), Hw.
    unfold publish_events. rewrite Hget, Hup.
    apply String.eqb_neq in Hid. rewrite Hid, Hpost. reflexivity. }
  rewrite run_trace, run_store, Hrun. cbn [log store]. split_and!.
  - reflexivity.
  - rewrite !elem_of_cons. auto 10.
  - unfold published. cbn [existsb is_post post_id]. rewrite Hpid.
    by rewrite !orb_true_r.
  - unfold publish_failed. cbn [existsb is_publish_failure post_id].
    rewrite Hpid. apply String.eqb_neq in Hid. by rewrite Hid.
  - reflexivity.
Qed.

Lemma full_success_run_witness :
  map kind_of (trace sample_env (Document sample_history))
  = [News; Chat; Image; Chat; Fetch; Upload; Post; Save]
  ∧ store_after sample_env (Document sample_history)
    = Document
        ({[ "https://old.com" := "2024-03-15T12:00:00";
            "https://recent.com" := "2024-03-14T09:30:00.250000" ]} : history).
Proof.
  destruct (full_success_run sample_env (Document sample_history)
              {[ "https://recent.com" := "2024-03-14T09:30:00.250000" ]}
              (Some "Old News") "https://old.com" "Old" "generated text"
              "https://images.example/1.jpg" "generated text" "123456789" "42"
              [] (mk_tweet_response (Some "42")))
    as (Hk & _ & _ & _ & Hs);
    [vm_compute; reflexivity
    |vm_compute; reflexivity
    |discriminate
    |vm_compute; reflexivity
    |discriminate
    |vm_compute; reflexivity
    |discriminate
    |vm_compute; reflexivity
    |discriminate
    |vm_compute; reflexivity
    |vm_compute; reflexivity
    |discriminate
    |vm_compute; reflexivity
    |vm_compute; reflexivity
    |vm_compute; reflexivity
    |].
  split; [exact Hk|exact Hs].
Defined.

(** A run does not post again an article the history holds for less than
    seven days: when the file holds a url stamped by [isoformat] less than
    [HISTORY_RETENTION_DAYS] days before the run's first clock reading,
    every history the run writes still holds that url with that timestamp,
    so the article the run selected is another one. *)
Theorem recent_entry_not_rewritten (E : env) (h0 : history) (u : string)
    (t : Datetime.datetime) :
  Datetime.wf t = true → Datetime.wf (clock E 0) = true →
  h0 !! u = Some (Datetime.isoformat t) →
  timeline (clock E 0) - timeline t < HISTORY_RETENTION_DAYS * DAY_US →
  ∀ h r, FileWrite h r ∈ trace E (Document h0) →
         h !! u = Some (Datetime.isoformat t)
         ∧ ∃ v, v ≠ u ∧ h !! v = Some (Datetime.isoformat (clock E 1)).
Proof.
  intros Wt Wnow Hu Hage h r. rewrite run_trace.
  destruct (run_pipeline E (Document h0))
    as [| | | | |h1 t' v d p loc c Hclean Hsel Hv]; cbn [log];
    rewrite ?elem_of_app, ?elem_of_cons, ?elem_of_nil; intros Hin;
    repeat match goal with
           | H : _ ∨ _ |- _ => destruct H as [H|H]
           | H : _ ∈ publish_events _ _ _ |- _ =>
               apply publish_events_elem in H; cbn beta iota in H
           end;
    try done.
  injection Hin as -> ->. cbn [loaded] in Hclean.
  assert (Hkept : h1 !! u = Some (Datetime.isoformat t)).
  { apply (stamped_entry_lookup t (clock E 0) u h0 h1); done. }
  assert (Hfresh : h1 !! v = None).
  { unfold selection in Hsel.
    destruct (news_get E _) as [resp|e]; [|by destruct (is_RequestException e)].
    injection Hsel as Hsel. by apply first_unposted_url in Hsel as (_ & ? & _). }
  assert (v ≠ u) by congruence.
  split.
  - by rewrite lookup_insert_ne.
  - exists v. split; [done|]. apply lookup_insert_eq.
Qed.

Lemma recent_entry_not_rewritten_witness :
  ({[ "https://new.com" := "2024-03-20T08:00:00";
      "https://old.com" := "2024-03-15T12:00:00" ]} : history)
    !! "https://old.com" = Some "2024-03-15T12:00:00"
  ∧ ∃ v, v ≠ "https://old.com"
         ∧ ({[ "https://new.com" := "2024-03-20T08:00:00";
               "https://old.com" := "2024-03-15T12:00:00" ]} : history)
             !! v = Some "2024-03-20T08:00:00".
Proof.
  apply (recent_entry_not_rewritten (env_with sample_later Written)
           {[ "https://old.com" := "2024-03-15T12:00:00" ]}
           "https://old.com" sample_now)
    with (r := Written).
  - reflexivity.
  - reflexivity.
  - vm_compute. reflexivity.
  - vm_compute. reflexivity.
  - vm_compute. repeat constructor.
Defined.

(** A history file that is JSON but not an object of strings stops every
    run: [load_posted_articles] returns the decoded object as it is, the
    pruning raises on it, and [main] returns after the first clock reading
    with no call made and the file as it was, whatever the collaborators
    would have answered. *)
Theorem wrong_shape_ends_run (E : env) (j : pyobj) :
  (∀ h : history, j ≠ dict_of h) →
  load_posted_articles (mk_world (Document j) 0 [])
  = (Ok j, mk_world (Document j) 0 [])
  ∧ run E (Document j) = (Ok tt, mk_world (Document j) 1 []).
Proof.
  intros Hj. split; [done|].
  rewrite main_run. f_equal. unfold run_world. cbn [loaded].
  by destruct (clean_old_entries_with_wrong_shape HISTORY_RETENTION_DAYS
                 (clock E 0) j Hj) as [e ->].
Qed.

Lemma wrong_shape_ends_run_witness :
  run sample_env (Document number_document)
  = (Ok tt, mk_world (Document number_document) 1 []).
Proof.
  apply (wrong_shape_ends_run sample_env number_document).
  intros h Heq. injection Heq as Heq.
  assert (Hu : (PyStr <$> h) !! "https://old.com" = Some (PyInt 1710504000))
    by (by rewrite <- Heq).
  rewrite lookup_fmap in Hu. by destruct (h !! "https://old.com").
Defined.
